(** * The CryptoCompare gateway (main.py), embedded and verified

    The gateway is one Python module: a helper, [fetch_from_cryptocompare],
    that performs the outbound call and maps the upstream status to a local
    failure, and seven FastAPI handlers that normalise their query
    parameters and delegate to it.

    The embedding follows the module top to bottom.  Python values are
    modelled as the interpreter has them:
    - [str] is a sequence of Unicode code points, so that [s[:200]] and
      [len] count characters, not bytes;
    - [int] is [Z] (unbounded);
    - a [dict] is its list of items in insertion order, keys unique;
    - [print], the outbound call and [raise] are the effects of a small
      state-and-exception monad: the state holds what was written to the
      standard output and the requests that left the process. *)

From Stdlib Require Import ZArith NArith List String Ascii Bool Lia.
From Stdlib Require Import DecimalString.
From Stdlib Require Import Floats.SpecFloat.
Import ListNotations.

Set Implicit Arguments.

(** ** Text *)

Module Text.

Definition codepoint := N.
Definition str := list codepoint.

(** An ASCII literal of the source as code points. *)
Definition lit (s : string) : str := map N_of_ascii (list_ascii_of_string s).

(** The symbols the source uses in its messages. *)
Definition MAGNIFIER : codepoint := 128269%N.   (* U+1F50D *)
Definition CHECK_MARK : codepoint := 9989%N.    (* U+2705 *)
Definition CROSS_MARK : codepoint := 10060%N.   (* U+274C *)
Definition WARNING_SIGN : codepoint := 9888%N.  (* U+26A0 *)

Fixpoint str_eqb (a b : str) : bool :=
  match a, b with
  | [], [] => true
  | c :: a', d :: b' => N.eqb c d && str_eqb a' b'
  | _, _ => false
  end.

Fixpoint startswith (s p : str) : bool :=
  match p, s with
  | [], _ => true
  | _ :: _, [] => false
  | c :: p', d :: s' => N.eqb c d && startswith s' p'
  end.

(** [contains s sub] is Python's [sub in s]. *)
Fixpoint contains (s sub : str) : bool :=
  startswith s sub ||
  match s with
  | [] => false
  | _ :: s' => contains s' sub
  end.

(** [s[:n]] for a non-negative constant [n]. *)
Definition prefix (n : nat) (s : str) : str := firstn n s.

(** [s.split(sep)] for a separator of one character. *)
Fixpoint split (sep : codepoint) (s : str) : list str :=
  match s with
  | [] => [[]]
  | c :: s' =>
      if N.eqb c sep then [] :: split sep s'
      else match split sep s' with
           | piece :: pieces => (c :: piece) :: pieces
           | [] => [[c]]
           end
  end.

(** [sep.join(pieces)], the inverse of [split]. *)
Fixpoint join (sep : codepoint) (pieces : list str) : str :=
  match pieces with
  | [] => []
  | [piece] => piece
  | piece :: rest => piece ++ sep :: join sep rest
  end.

(** [sep.join(pieces)] for any separator. *)
Fixpoint join_str (sep : str) (pieces : list str) : str :=
  match pieces with
  | [] => []
  | [piece] => piece
  | piece :: rest => piece ++ sep ++ join_str sep rest
  end.

Definition PIPE : codepoint := 124%N.

(** [str.upper()]: every character is replaced by its full upper-case
    mapping.  On ASCII that is the letter shift; beyond ASCII it is the
    Unicode database's table, which is taken as [table]. *)
Definition ascii_upper (c : codepoint) : codepoint :=
  if (97 <=? c)%N && (c <=? 122)%N then (c - 32)%N else c.

Definition upper_char (table : codepoint -> str) (c : codepoint) : str :=
  if (c <? 128)%N then [ascii_upper c] else table c.

Definition upper (table : codepoint -> str) (s : str) : str :=
  flat_map (upper_char table) s.

Definition is_ascii (s : str) : bool := forallb (fun c => (c <? 128)%N) s.

(** [str(n)] of an [int]. *)
Definition str_of_int (z : Z) : str := lit (NilZero.string_of_int (Z.to_int z)).

(** *** [repr] of a [str] *)

Definition hex_digit (n : N) : codepoint :=
  if (n <? 10)%N then (48 + n)%N else (87 + n)%N.

Fixpoint hex_fixed (width : nat) (n : N) : str :=
  match width with
  | O => []
  | S w => hex_fixed w (n / 16) ++ [hex_digit (n mod 16)]
  end.

Definition APOSTROPHE : codepoint := 39%N.
Definition DOUBLE_QUOTE : codepoint := 34%N.
Definition BACKSLASH : codepoint := 92%N.

Definition repr_quote (s : str) : codepoint :=
  if existsb (N.eqb APOSTROPHE) s && negb (existsb (N.eqb DOUBLE_QUOTE) s)
  then DOUBLE_QUOTE else APOSTROPHE.

Definition repr_char (isprintable : codepoint -> bool) (quote c : codepoint) : str :=
  if N.eqb c quote || N.eqb c BACKSLASH then [BACKSLASH; c]
  else if N.eqb c 9 then lit "\t"
  else if N.eqb c 10 then lit "\n"
  else if N.eqb c 13 then lit "\r"
  else if (c <? 32)%N || N.eqb c 127 then lit "\x" ++ hex_fixed 2 c
  else if (c <? 127)%N then [c]
  else if isprintable c then [c]
  else if (c <=? 255)%N then lit "\x" ++ hex_fixed 2 c
  else if (c <=? 65535)%N then lit "\u" ++ hex_fixed 4 c
  else lit "\U" ++ hex_fixed 8 c.

Definition repr_str (isprintable : codepoint -> bool) (s : str) : str :=
  let quote := repr_quote s in
  quote :: flat_map (repr_char isprintable quote) s ++ [quote].

(** Characters that [repr] copies as they are, whatever the quote. *)
Definition plain_char (c : codepoint) : bool :=
  (32 <=? c)%N && (c <? 127)%N &&
  negb (N.eqb c APOSTROPHE) && negb (N.eqb c DOUBLE_QUOTE) && negb (N.eqb c BACKSLASH).

End Text.
Import Text.

(** ** Values *)

(** What [json.loads] builds. *)
#[warnings="-register-all"] Inductive JSON : Type :=
| JNull
| JBool (b : bool)
| JInt (z : Z)
| JFloat (f : spec_float)
| JStr (s : str)
| JList (items : list JSON)
| JDict (items : list (str * JSON)).

(** The values of a parameter mapping: the handlers store [str] and [int]. *)
Inductive pyval : Type :=
| VStr (s : str)
| VInt (z : Z).

Section Dict.
Variable V : Type.

Definition dict := list (str * V).

Fixpoint dict_get (key : str) (d : dict) : option V :=
  match d with
  | [] => None
  | (k, v) :: rest => if str_eqb k key then Some v else dict_get key rest
  end.

(** [d[key] = value]: replaces in place, or adds at the end. *)
Fixpoint dict_set (key : str) (value : V) (d : dict) : dict :=
  match d with
  | [] => [(key, value)]
  | (k, v) :: rest =>
      if str_eqb k key then (k, value) :: rest
      else (k, v) :: dict_set key value rest
  end.

(** [repr] of a dict, given [repr] of its values. *)
Definition repr_item (isprintable : codepoint -> bool)
    (repr_value : V -> str) (kv : str * V) : str :=
  repr_str isprintable (fst kv) ++ lit ": " ++ repr_value (snd kv).

Definition repr_dict (isprintable : codepoint -> bool)
    (repr_value : V -> str) (d : dict) : str :=
  lit "{" ++ join_str (lit ", ") (map (repr_item isprintable repr_value) d) ++ lit "}".
End Dict.

(** Truth value of a value, as [if v:] takes it. *)
Definition truthy (v : JSON) : bool :=
  match v with
  | JNull => false
  | JBool b => b
  | JInt z => negb (Z.eqb z 0)
  | JFloat (S754_zero _) => false
  | JFloat _ => true
  | JStr s => match s with [] => false | _ => true end
  | JList l => match l with [] => false | _ => true end
  | JDict d => match d with [] => false | _ => true end
  end.

Definition type_name (v : JSON) : string :=
  match v with
  | JNull => "NoneType"
  | JBool _ => "bool"
  | JInt _ => "int"
  | JFloat _ => "float"
  | JStr _ => "str"
  | JList _ => "list"
  | JDict _ => "dict"
  end.

(** ** Exceptions, requests and the world *)

(** The exceptions the module meets, all subclasses of [Exception]:
    FastAPI's [HTTPException], [requests.RequestException] (with its
    subclasses) carrying [str(e)], and the interpreter's own errors
    carrying their class name and [str(e)]. *)
Inductive exn : Type :=
| HTTPException (status_code : Z) (detail : str)
| RequestException (message : str)
| PyError (cls : string) (message : str).

Definition result (A : Type) : Type := (exn + A)%type.

Definition rbind {A B : Type} (c : result A) (k : A -> result B) : result B :=
  match c with
  | inl e => inl e
  | inr a => k a
  end.

Notation "x <-? c ;; k" := (rbind c (fun x => k))
  (at level 61, c at next level, right associativity).

Fixpoint rmap {A B : Type} (f : A -> result B) (l : list A) : result (list B) :=
  match l with
  | [] => inr []
  | a :: rest =>
      b <-? f a ;;
      bs <-? rmap f rest ;;
      inr (b :: bs)
  end.

(** The outbound request descriptor: what [requests.get] is called with. *)
Record Request : Type := mkRequest {
  req_url : str;
  req_headers : dict str;
  req_params : option (dict pyval)
}.

(** What the module reads of a [requests.Response]: [json] is the outcome
    of [response.json()], the decoded body or the decoding error that the
    installed version of requests raises. *)
Record Response : Type := mkResponse {
  status_code : Z;
  text : str;
  json : result JSON
}.

(** What the module is run in: the environment variable, the network, and
    the tables of the libraries it calls. *)
Record Env : Type := mkEnv {
  CRYPTOCOMPARE_API_KEY : option str;
  requests_get : Request -> result Response;
  isprintable : codepoint -> bool;
  toupper_full : codepoint -> str;
  http_exception_str : Z -> str -> str
}.

(** What a run leaves behind: the lines printed, the requests sent. *)
Record World : Type := mkWorld {
  stdout : list str;
  sent : list Request
}.

Definition M (A : Type) : Type := World -> result A * World.

Definition ret {A : Type} (a : A) : M A := fun w => (inr a, w).

Definition bind {A B : Type} (c : M A) (k : A -> M B) : M B :=
  fun w =>
    match c w with
    | (inl e, w') => (inl e, w')
    | (inr a, w') => k a w'
    end.

Definition raise {A : Type} (e : exn) : M A := fun w => (inl e, w).

Definition lift {A : Type} (r : result A) : M A := fun w => (r, w).

Definition print (line : str) : M unit :=
  fun w => (inr tt, mkWorld (stdout w ++ [line]) (sent w)).

Notation "x <- c ;; k" := (bind c (fun x => k))
  (at level 61, c at next level, right associativity).
Notation "c ;; k" := (bind c (fun _ => k))
  (at level 61, right associativity).

(** [try: body except requests.RequestException as e: handler(str(e))] *)
Definition try_except_RequestException {A : Type}
    (body : M A) (handler : str -> M A) : M A :=
  fun w =>
    match body w with
    | (inl (RequestException message), w') => handler message w'
    | outcome => outcome
    end.

(** [try: body except Exception as e: handler(e)] *)
Definition try_except_Exception {A : Type}
    (body : M A) (handler : exn -> M A) : M A :=
  fun w =>
    match body w with
    | (inl e, w') => handler e w'
    | outcome => outcome
    end.

Definition empty_world : World := mkWorld [] [].

(** ** The module *)

Section Gateway.

Variable env : Env.

(** [str(e)] for a caught exception. *)
Definition exn_str (e : exn) : str :=
  match e with
  | HTTPException status_code detail => http_exception_str env status_code detail
  | RequestException message => message
  | PyError _ message => message
  end.

(** [f"{value}"] for [os.getenv]'s result. *)
Definition format_optional (value : option str) : str :=
  match value with
  | Some s => s
  | None => lit "None"
  end.

Definition BASE_URL : str := lit "https://min-api.cryptocompare.com/data".

Definition HEADERS : dict str :=
  [(lit "authorization", lit "Apikey " ++ format_optional (CRYPTOCOMPARE_API_KEY env))].

Definition repr_headers (h : dict str) : str :=
  repr_dict (isprintable env) (repr_str (isprintable env)) h.

Definition repr_pyval (v : pyval) : str :=
  match v with
  | VStr s => repr_str (isprintable env) s
  | VInt z => str_of_int z
  end.

Definition format_params (params : option (dict pyval)) : str :=
  match params with
  | Some d => repr_dict (isprintable env) repr_pyval d
  | None => lit "None"
  end.

(** [requests.get(url, headers=..., params=...)]: the request leaves the
    process and the network answers or fails. *)
Definition get (url : str) (headers : dict str) (params : option (dict pyval))
    : M Response :=
  fun w =>
    let request := mkRequest url headers params in
    (requests_get env request, mkWorld (stdout w) (sent w ++ [request])).

(** Helper function to send requests to CryptoCompare. *)
Definition fetch_from_cryptocompare (endpoint : str)
    (params : option (dict pyval)) : M JSON :=
  let url := BASE_URL ++ endpoint in
  print (MAGNIFIER :: lit " Sending request to: " ++ url) ;;
  print (MAGNIFIER :: lit " With headers: " ++ repr_headers HEADERS) ;;
  print (MAGNIFIER :: lit " With params: " ++ format_params params) ;;
  try_except_RequestException
    (response <- get url HEADERS params ;;
     print (CHECK_MARK :: lit " Response status: " ++ str_of_int (status_code response)) ;;
     if Z.eqb (status_code response) 200 then
       lift (json response)
     else if Z.eqb (status_code response) 400 then
       print (CROSS_MARK :: lit " Bad Request: " ++ text response) ;;
       raise (HTTPException 400 (CROSS_MARK :: lit " Bad Request: " ++ text response))
     else if Z.eqb (status_code response) 401 then
       print (CROSS_MARK :: lit " Unauthorized: " ++ text response) ;;
       raise (HTTPException 401 (CROSS_MARK :: lit " Invalid API Key"))
     else if Z.eqb (status_code response) 429 then
       print (CROSS_MARK :: lit " Too Many Requests: " ++ text response) ;;
       raise (HTTPException 429
                (CROSS_MARK :: lit " Rate limit exceeded. Please try again later."))
     else
       print (WARNING_SIGN :: lit " Unexpected Error: " ++ text response) ;;
       raise (HTTPException (status_code response)
                (WARNING_SIGN :: lit " Unexpected Error: " ++ prefix 200 (text response))))
    (fun e =>
       print (CROSS_MARK :: lit " Request error: " ++ e) ;;
       raise (HTTPException 500 (CROSS_MARK :: lit " Connection Error: " ++ e))).

Definition str_upper (s : str) : str := upper (toupper_full env) s.

(** [params["e"] = e] under [if e:]. *)
Definition with_exchange (e : option str) (params : dict pyval) : dict pyval :=
  match e with
  | Some (c :: s) => dict_set (lit "e") (VStr (c :: s)) params
  | _ => params
  end.

(** Get the current price of a cryptocurrency in multiple currencies. *)
Definition get_price (fsym tsyms : str) (e : option str) : M JSON :=
  let params := [(lit "fsym", VStr (str_upper fsym));
                 (lit "tsyms", VStr (str_upper tsyms))] in
  let params := with_exchange e params in
  fetch_from_cryptocompare (lit "/price") (Some params).

(** Get historical daily OHLCV data. *)
Definition get_histoday (fsym tsym : str) (limit aggregate : Z) (e : option str)
    : M JSON :=
  let params := [(lit "fsym", VStr (str_upper fsym));
                 (lit "tsym", VStr (str_upper tsym));
                 (lit "limit", VInt (Z.min limit 2000));
                 (lit "aggregate", VInt aggregate)] in
  let params := with_exchange e params in
  fetch_from_cryptocompare (lit "/v2/histoday") (Some params).

(** Get historical hourly OHLCV data. *)
Definition get_histohour (fsym tsym : str) (limit aggregate : Z) (e : option str)
    : M JSON :=
  let params := [(lit "fsym", VStr (str_upper fsym));
                 (lit "tsym", VStr (str_upper tsym));
                 (lit "limit", VInt (Z.min limit 2000));
                 (lit "aggregate", VInt aggregate)] in
  let params := with_exchange e params in
  fetch_from_cryptocompare (lit "/v2/histohour") (Some params).

(** Get top trading pairs for a cryptocurrency. *)
Definition get_top_pairs (fsym : str) (limit : Z) : M JSON :=
  let params := [(lit "fsym", VStr (str_upper fsym));
                 (lit "limit", VInt (Z.min limit 100))] in
  fetch_from_cryptocompare (lit "/top/pairs") (Some params).

(** Get prices for multiple cryptocurrencies in multiple currencies. *)
Definition get_pricemulti (fsyms tsyms : str) (e : option str) : M JSON :=
  let params := [(lit "fsyms", VStr (str_upper fsyms));
                 (lit "tsyms", VStr (str_upper tsyms))] in
  let params := with_exchange e params in
  fetch_from_cryptocompare (lit "/pricemulti") (Some params).

(** *** The news handler *)

(** [item.get(key, default)]; only a dict has [get]. *)
Definition item_get (item : JSON) (key : str) (default : JSON) : result JSON :=
  match item with
  | JDict d =>
      inr (match dict_get key d with
           | Some v => v
           | None => default
           end)
  | other =>
      inl (PyError "AttributeError"
             (lit "'" ++ lit (type_name other) ++ lit "' object has no attribute 'get'"))
  end.

(** [value.split("|")]; only a str has [split]. *)
Definition split_pipe (value : JSON) : result JSON :=
  match value with
  | JStr s => inr (JList (map JStr (split PIPE s)))
  | other =>
      inl (PyError "AttributeError"
             (lit "'" ++ lit (type_name other) ++ lit "' object has no attribute 'split'"))
  end.

(** [item.get("categories", "").split("|")] *)
Definition item_categories (item : JSON) : result JSON :=
  value <-? item_get item (lit "categories") (JStr []) ;;
  split_pipe value.

(** [item.get("tags", "").split("|") if item.get("tags") else []] *)
Definition item_tags (item : JSON) : result JSON :=
  test <-? item_get item (lit "tags") JNull ;;
  if truthy test then
    value <-? item_get item (lit "tags") (JStr []) ;;
    split_pipe value
  else inr (JList []).

(** The dict appended to [simplified_news] for one upstream item. *)
Definition simplified_item (item : JSON) : result JSON :=
  id <-? item_get item (lit "id") JNull ;;
  title <-? item_get item (lit "title") JNull ;;
  url <-? item_get item (lit "url") JNull ;;
  source <-? item_get item (lit "source") JNull ;;
  published_on <-? item_get item (lit "published_on") JNull ;;
  categories <-? item_categories item ;;
  tags <-? item_tags item ;;
  inr (JDict [(lit "id", id);
              (lit "title", title);
              (lit "url", url);
              (lit "source", source);
              (lit "published_on", published_on);
              (lit "categories", categories);
              (lit "tags", tags)]).

(** ["Data" in value] *)
Definition has_Data (value : JSON) : result bool :=
  match value with
  | JDict d => inr (match dict_get (lit "Data") d with Some _ => true | None => false end)
  | JList l =>
      inr (existsb (fun x => match x with
                             | JStr s => str_eqb s (lit "Data")
                             | _ => false
                             end) l)
  | JStr s => inr (contains s (lit "Data"))
  | other =>
      inl (PyError "TypeError"
             (lit "argument of type '" ++ lit (type_name other) ++ lit "' is not iterable"))
  end.

(** [value["Data"]] *)
Definition get_Data (value : JSON) : result JSON :=
  match value with
  | JDict d =>
      match dict_get (lit "Data") d with
      | Some v => inr v
      | None => inl (PyError "KeyError" (lit "'Data'"))
      end
  | JList _ =>
      inl (PyError "TypeError" (lit "list indices must be integers or slices, not str"))
  | JStr _ =>
      inl (PyError "TypeError" (lit "string indices must be integers, not 'str'"))
  | other =>
      inl (PyError "TypeError"
             (lit "'" ++ lit (type_name other) ++ lit "' object is not subscriptable"))
  end.

(** [l[:limit]]: a negative bound counts from the end. *)
Definition slice_to {A : Type} (limit : Z) (l : list A) : list A :=
  if Z.ltb limit 0 then firstn (List.length l - Z.to_nat (- limit)) l
  else firstn (Z.to_nat limit) l.

(** The loop that fills [simplified_news]. *)
Definition simplify_news (full_response : JSON) (limit : Z) : result (list JSON) :=
  present <-? has_Data full_response ;;
  if present then
    data <-? get_Data full_response ;;
    match data with
    | JList items => rmap simplified_item (slice_to limit items)
    | _ => inr []
    end
  else inr [].

Definition envelope (simplified_news : list JSON) : JSON :=
  JDict [(lit "status", JStr (lit "success"));
         (lit "count", JInt (Z.of_nat (List.length simplified_news)));
         (lit "news", JList simplified_news)].

(** Get latest cryptocurrency news with simplified response format. *)
Definition get_news (categories : option str) (limit : Z) (lang : str) : M JSON :=
  let params := [(lit "limit", VInt (Z.min limit 20));
                 (lit "lang", VStr (str_upper lang))] in
  let params := match categories with
                | Some (c :: s) => dict_set (lit "categories") (VStr (c :: s)) params
                | _ => params
                end in
  full_response <- fetch_from_cryptocompare (lit "/v2/news/") (Some params) ;;
  simplified_news <- lift (simplify_news full_response limit) ;;
  ret (envelope simplified_news).

(** *** The key check *)

Definition key_valid_body (price : JSON) : JSON :=
  JDict [(lit "status", JStr (lit "success"));
         (lit "message",
          JStr (CHECK_MARK ::
                lit " API key is valid and connection to CryptoCompare is established"));
         (lit "price", price)].

Definition key_error_body (e : exn) : JSON :=
  JDict [(lit "status", JStr (lit "error"));
         (lit "message", JStr (CROSS_MARK :: lit " Connection Error: " ++ exn_str e))].

(** Test the CryptoCompare API key. *)
Definition test_api_key : M JSON :=
  try_except_Exception
    (price <- fetch_from_cryptocompare (lit "/price")
                (Some [(lit "fsym", VStr (lit "BTC")); (lit "tsyms", VStr (lit "USD"))]) ;;
     ret (key_valid_body price))
    (fun e => ret (key_error_body e)).

End Gateway.

(** ** Observations on a run *)

(** The value each request of a run carried upstream for the parameter
    [name], oldest first. *)
Definition sent_upstream (name : str) (outcome : result JSON * World)
    : list (option pyval) :=
  map (fun request =>
         match req_params request with
         | Some d => dict_get name d
         | None => None
         end)
      (sent (snd outcome)).

(** The field [name] of a returned body. *)
Definition field (name : str) (body : JSON) : option JSON :=
  match body with
  | JDict d => dict_get name d
  | _ => None
  end.

(** A line of the trace shows [secret] when it contains it. *)
Definition shows (secret line : str) : bool := contains line secret.

(** The request one call of [fetch_from_cryptocompare] sends. *)
Definition outbound (env : Env) (endpoint : str) (params : option (dict pyval))
    : Request :=
  mkRequest (BASE_URL ++ endpoint) (HEADERS env) params.

(** The three lines every call prints before the request leaves. *)
Definition url_line (endpoint : str) : str :=
  MAGNIFIER :: lit " Sending request to: " ++ BASE_URL ++ endpoint.

Definition headers_line (env : Env) : str :=
  MAGNIFIER :: lit " With headers: " ++ repr_headers env (HEADERS env).

Definition params_line (env : Env) (params : option (dict pyval)) : str :=
  MAGNIFIER :: lit " With params: " ++ format_params env params.

(** The trace redacts the credential when no header line shows it. *)
Definition credential_redacted (env : Env) (w : World) : Prop :=
  forall key line,
    CRYPTOCOMPARE_API_KEY env = Some key ->
    In line (stdout w) ->
    startswith line (MAGNIFIER :: lit " With headers: ") = true ->
    shows key line = false.

(** The parameters of the probe that [test_api_key] sends. *)
Definition probe_params : option (dict pyval) :=
  Some [(lit "fsym", VStr (lit "BTC")); (lit "tsyms", VStr (lit "USD"))].


(** Environments for the examples: every character printable, no letter
    beyond ASCII, and [str(HTTPException)] as Starlette renders it. *)
Definition sample_env (key : option str) (network : Request -> result Response)
    : Env :=
  mkEnv key network (fun _ => true) (fun c => [c])
        (fun status detail => str_of_int status ++ lit ": " ++ detail).

(** A network that answers every request with one status and body. *)
Definition answers (status : Z) (body : str) (decoded : result JSON)
    : Request -> result Response :=
  fun _ => inr (mkResponse status body decoded).

(** A network that is down. *)
Definition unreachable (message : str) : Request -> result Response :=
  fun _ => inl (RequestException message).

Definition not_json : result JSON :=
  inl (RequestException (lit "Expecting value: line 1 column 1 (char 0)")).

(** An upstream error body of 201 characters. *)
Definition long_body : str := repeat 120%N 201.

(** What is claimed of a news envelope for a requested [limit]: [count]
    is the length of [news], and that length is at most [limit]. *)
Definition news_within_limit (limit : Z) (body : JSON) : Prop :=
  exists news,
    field (lit "news") body = Some (JList news) /\
    field (lit "count") body = Some (JInt (Z.of_nat (List.length news))) /\
    (Z.of_nat (List.length news) <= limit)%Z.

(** An upstream news payload of two bare items. *)
Definition two_items : result JSON :=
  inr (JDict [(lit "Data", JList [JDict []; JDict []])]).

(** The item of the specification's example. *)
Definition btc_item : JSON :=
  JDict [(lit "id", JStr (lit "42"));
         (lit "categories", JStr (lit "BTC|Regulation"))].

(** The entry that an optional parameter adds to the mapping: none when
    it is absent or empty. *)
Definition optional_entry (name : str) (value : option str) : dict pyval :=
  match value with
  | Some (c :: s) => [(name, VStr (c :: s))]
  | _ => []
  end.

(** The request a handler sends to [url] with [params]. *)
Definition request_to (env : Env) (url : string) (params : dict pyval) : Request :=
  mkRequest (lit url) (HEADERS env) (Some params).

(** [item.get(key)]: the value of the field, [None] when it is missing. *)
Definition field_or_null (key : str) (d : dict JSON) : JSON :=
  match dict_get key d with
  | Some v => v
  | None => JNull
  end.


(** What upper case means on ASCII text, said without [upper]: [y] has the
    length of [x], holds the capital letter where [x] holds a small one
    (32 code points below it), and the character of [x] everywhere else. *)
Definition capitalised (x y : str) : Prop :=
  List.length y = List.length x /\
  forall i c,
    nth_error x i = Some c ->
    ((97 <= c <= 122)%N -> nth_error y i = Some (c - 32)%N) /\
    ((c < 97 \/ 122 < c)%N -> nth_error y i = Some c).

(** A failure hides the credential when its message does not contain it. *)
Definition message_hides_credential (env : Env) (outcome : result JSON) : Prop :=
  forall key status detail,
    CRYPTOCOMPARE_API_KEY env = Some key ->
    outcome = inl (HTTPException status detail) ->
    shows key detail = false.

(** Unfolds one call of the helper down to the answer of the network. *)
Ltac run_fetch :=
  unfold fetch_from_cryptocompare, try_except_RequestException,
    bind, print, get, raise, lift, ret;
  cbn [fst snd stdout sent].

(** ** Facts about text *)

Lemma str_eqb_refl (s : str) : str_eqb s s = true.
Proof.
  induction s as [|c s IH]; simpl; [reflexivity|].
  now rewrite N.eqb_refl, IH.
Qed.

Lemma str_eqb_eq (a b : str) : str_eqb a b = true <-> a = b.
Proof.
  split.
  - revert b; induction a as [|c a IH]; intros [|d b]; simpl; try easy.
    intros H; apply andb_true_iff in H as [Hc Hs].
    apply N.eqb_eq in Hc; apply IH in Hs; now subst.
  - intros ->; apply str_eqb_refl.
Qed.

Lemma startswith_app (p s : str) : startswith (p ++ s) p = true.
Proof.
  induction p as [|c p IH]; simpl; [now destruct s|].
  now rewrite N.eqb_refl, IH.
Qed.

Lemma startswith_length (s p : str) :
  startswith s p = true -> (List.length p <= List.length s)%nat.
Proof.
  revert s; induction p as [|c p IH]; intros [|d s]; simpl; try easy; try lia.
  intros H; apply andb_true_iff in H as [_ H]; apply IH in H; lia.
Qed.

Lemma contains_length (s sub : str) :
  contains s sub = true -> (List.length sub <= List.length s)%nat.
Proof.
  induction s as [|c s IH]; cbn [contains]; intros H.
  - rewrite orb_false_r in H; now apply startswith_length in H.
  - apply orb_true_iff in H as [H|H].
    + now apply startswith_length in H.
    + apply IH in H; simpl; lia.
Qed.

Lemma contains_app (a sub b : str) : contains (a ++ sub ++ b) sub = true.
Proof.
  induction a as [|c a IH].
  - cbn [app]; destruct (sub ++ b) eqn:E; cbn [contains];
      now rewrite <- E, startswith_app.
  - cbn [app contains]; rewrite IH; apply orb_true_r.
Qed.

Lemma prefix_length (n : nat) (s : str) : (List.length (prefix n s) <= n)%nat.
Proof. unfold prefix; rewrite length_firstn; lia. Qed.

Lemma prefix_short (n : nat) (s : str) :
  (List.length s <= n)%nat -> prefix n s = s.
Proof. intros H; unfold prefix; now apply firstn_all2. Qed.

Lemma split_nonempty (sep : codepoint) (s : str) : split sep s <> [].
Proof.
  induction s as [|c s IH]; simpl; [easy|].
  destruct (N.eqb c sep); [easy|].
  destruct (split sep s); easy.
Qed.

(** Joining the pieces with the separator gives the string back. *)
Lemma join_split (sep : codepoint) (s : str) : join sep (split sep s) = s.
Proof.
  induction s as [|c s IH]; simpl; [reflexivity|].
  destruct (N.eqb c sep) eqn:E.
  - apply N.eqb_eq in E; subst c.
    pose proof (split_nonempty sep s) as Hne.
    destruct (split sep s) as [|p ps]; [easy|].
    simpl in *; now rewrite IH.
  - pose proof (split_nonempty sep s) as Hne.
    destruct (split sep s) as [|p ps]; [easy|].
    destruct ps as [|q qs]; simpl in *; now rewrite <- IH.
Qed.

(** No piece holds the separator. *)
Lemma split_pieces_clean (sep : codepoint) (s piece : str) :
  In piece (split sep s) -> ~ In sep piece.
Proof.
  revert piece; induction s as [|c s IH]; simpl; intros piece H.
  - destruct H as [<-|[]]; easy.
  - destruct (N.eqb c sep) eqn:E.
    + destruct H as [<-|H]; [easy|now apply IH].
    + pose proof (split_nonempty sep s) as Hne.
      destruct (split sep s) as [|p ps]; [easy|].
      destruct H as [<-|H].
      * intros [->|Hin]; [now rewrite N.eqb_refl in E|].
        revert Hin; apply IH; now left.
      * apply IH; now right.
Qed.

(** One piece more than there are separators. *)
Lemma split_length (sep : codepoint) (s : str) :
  List.length (split sep s) = S (count_occ N.eq_dec s sep).
Proof.
  induction s as [|c s IH]; simpl; [reflexivity|].
  pose proof (split_nonempty sep s) as Hne.
  destruct (N.eq_dec c sep) as [->|Hc].
  - rewrite N.eqb_refl; simpl; now rewrite IH.
  - apply N.eqb_neq in Hc; rewrite Hc.
    destruct (split sep s) as [|p ps]; [easy|]; simpl in *; lia.
Qed.

(** On ASCII text [upper] is the letter shift, character by character. *)
Lemma upper_ascii (table : codepoint -> str) (s : str) :
  is_ascii s = true -> upper table s = map ascii_upper s.
Proof.
  unfold upper; induction s as [|c s IH]; simpl; [reflexivity|].
  intros H; apply andb_true_iff in H as [Hc Hs].
  unfold upper_char at 1; rewrite Hc; simpl; now rewrite IH.
Qed.

(** [repr] of plain text is the text between apostrophes. *)
Lemma repr_quote_plain (s : str) :
  forallb plain_char s = true -> repr_quote s = APOSTROPHE.
Proof.
  intros H; unfold repr_quote.
  replace (existsb (N.eqb APOSTROPHE) s) with false; [reflexivity|].
  symmetry; induction s as [|c s IH]; cbn [existsb forallb] in *; [reflexivity|].
  apply andb_true_iff in H as [Hc Hs]; rewrite (IH Hs), orb_false_r.
  unfold plain_char in Hc.
  rewrite !andb_true_iff, !negb_true_iff in Hc.
  destruct Hc as [[[_ Hq] _] _].
  rewrite N.eqb_sym; exact Hq.
Qed.

Lemma repr_char_plain (isprintable : codepoint -> bool) (c : codepoint) :
  plain_char c = true -> repr_char isprintable APOSTROPHE c = [c].
Proof.
  unfold plain_char; rewrite !andb_true_iff, !negb_true_iff.
  intros [[[[Hlo Hhi] Hq] _] Hb].
  apply N.leb_le in Hlo; apply N.ltb_lt in Hhi.
  unfold repr_char; rewrite Hq, Hb; cbn [orb].
  assert (H9 : N.eqb c 9 = false) by (apply N.eqb_neq; lia).
  assert (H10 : N.eqb c 10 = false) by (apply N.eqb_neq; lia).
  assert (H13 : N.eqb c 13 = false) by (apply N.eqb_neq; lia).
  assert (H32 : (c <? 32)%N = false) by (apply N.ltb_ge; lia).
  assert (H127 : N.eqb c 127 = false) by (apply N.eqb_neq; lia).
  assert (Hlt : (c <? 127)%N = true) by (apply N.ltb_lt; lia).
  now rewrite H9, H10, H13, H32, H127, Hlt.
Qed.

Lemma repr_str_plain (isprintable : codepoint -> bool) (s : str) :
  forallb plain_char s = true ->
  repr_str isprintable s = APOSTROPHE :: s ++ [APOSTROPHE].
Proof.
  intros H; unfold repr_str; rewrite (repr_quote_plain s H); cbv zeta.
  f_equal; f_equal.
  induction s as [|c s IH]; cbn [flat_map forallb] in *; [reflexivity|].
  apply andb_true_iff in H as [Hc Hs].
  now rewrite (repr_char_plain isprintable c Hc), (IH Hs).
Qed.

(** ** Facts about dicts *)

Lemma dict_get_set_other (V : Type) (key key' : str) (value : V) (d : dict V) :
  str_eqb key' key = false ->
  dict_get key (dict_set key' value d) = dict_get key d.
Proof.
  intros Hne; induction d as [|[k v] rest IH]; cbn [dict_set dict_get].
  - now rewrite Hne.
  - destruct (str_eqb k key') eqn:Ek; cbn [dict_get].
    + apply str_eqb_eq in Ek; subst k; now rewrite Hne.
    + now rewrite IH.
Qed.

Lemma dict_get_with_exchange (env : Env) (key : str) (e : option str)
    (params : dict pyval) :
  str_eqb (lit "e") key = false ->
  dict_get key (with_exchange e params) = dict_get key params.
Proof.
  intros Hne; destruct e as [[|c s]|]; cbn [with_exchange]; try reflexivity.
  now apply dict_get_set_other.
Qed.

(** ** Facts about the upstream call *)

Section FetchFacts.

Variable env : Env.
Variable endpoint : str.
Variable params : option (dict pyval).
Variable w : World.

(** Exactly one request leaves, the one built from the arguments. *)
Lemma fetch_sent :
  sent (snd (fetch_from_cryptocompare env endpoint params w)) =
  sent w ++ [outbound env endpoint params].
Proof.
  run_fetch; fold (outbound env endpoint params).
  destruct (requests_get env _) as [e|r].
  - destruct e; reflexivity.
  - repeat match goal with
           | |- context [if ?c then _ else _] => destruct c
           end;
      cbn [fst snd stdout sent]; try reflexivity.
    destruct (json r) as [[]|]; reflexivity.
Qed.

(** The trace starts with the URL, the headers and the parameters. *)
Lemma fetch_trace :
  exists rest,
    stdout (snd (fetch_from_cryptocompare env endpoint params w)) =
    stdout w ++ [url_line endpoint; headers_line env; params_line env params] ++ rest.
Proof.
  run_fetch; fold (outbound env endpoint params).
  fold (url_line endpoint) (headers_line env) (params_line env params).
  destruct (requests_get env _) as [e|r].
  - destruct e; cbn [fst snd stdout sent];
      eexists; rewrite <- ?app_assoc; cbn [app]; reflexivity.
  - repeat match goal with
           | |- context [if ?c then _ else _] => destruct c
           end;
      cbn [fst snd stdout sent].
    1: destruct (json r) as [[]|]; cbn [fst snd stdout sent].
    all: eexists; rewrite <- ?app_assoc; cbn [app]; reflexivity.
Qed.

Lemma fetch_transport_failure (message : str) :
  requests_get env (outbound env endpoint params) = inl (RequestException message) ->
  fst (fetch_from_cryptocompare env endpoint params w) =
  inl (HTTPException 500 (CROSS_MARK :: lit " Connection Error: " ++ message)).
Proof.
  intros H; run_fetch; fold (outbound env endpoint params).
  now rewrite H.
Qed.


Lemma fetch_bad_request (r : Response) :
  requests_get env (outbound env endpoint params) = inr r ->
  status_code r = 400%Z ->
  fst (fetch_from_cryptocompare env endpoint params w) = inl (HTTPException 400 (CROSS_MARK :: lit " Bad Request: " ++ text r)).
Proof.
  intros H Hs; run_fetch; fold (outbound env endpoint params).
  now rewrite H, Hs.
Qed.

Lemma fetch_unauthorized (r : Response) :
  requests_get env (outbound env endpoint params) = inr r ->
  status_code r = 401%Z ->
  fst (fetch_from_cryptocompare env endpoint params w) = inl (HTTPException 401 (CROSS_MARK :: lit " Invalid API Key")).
Proof.
  intros H Hs; run_fetch; fold (outbound env endpoint params).
  now rewrite H, Hs.
Qed.

Lemma fetch_rate_limited (r : Response) :
  requests_get env (outbound env endpoint params) = inr r ->
  status_code r = 429%Z ->
  fst (fetch_from_cryptocompare env endpoint params w) =
  inl (HTTPException 429
         (CROSS_MARK :: lit " Rate limit exceeded. Please try again later.")).
Proof.
  intros H Hs; run_fetch; fold (outbound env endpoint params).
  now rewrite H, Hs.
Qed.

Lemma fetch_unexpected (r : Response) :
  requests_get env (outbound env endpoint params) = inr r ->
  status_code r <> 200%Z -> status_code r <> 400%Z ->
  status_code r <> 401%Z -> status_code r <> 429%Z ->
  fst (fetch_from_cryptocompare env endpoint params w) =
  inl (HTTPException (status_code r)
         (WARNING_SIGN :: lit " Unexpected Error: " ++ prefix 200 (text r))).
Proof.
  intros H H200 H400 H401 H429; run_fetch;
    fold (outbound env endpoint params).
  apply Z.eqb_neq in H200, H400, H401, H429.
  now rewrite H, H200, H400, H401, H429.
Qed.

End FetchFacts.

(** ** Echoed upstream bodies *)

(** The excerpt of the catch-all branch is cut at 200 characters. *)
Lemma unexpected_error_excerpt_bounded (env : Env) (endpoint : str)
    (params : option (dict pyval)) (w : World) (r : Response) :
  requests_get env (outbound env endpoint params) = inr r ->
  status_code r <> 200%Z -> status_code r <> 400%Z ->
  status_code r <> 401%Z -> status_code r <> 429%Z ->
  exists excerpt,
    fst (fetch_from_cryptocompare env endpoint params w) =
    inl (HTTPException (status_code r)
           (WARNING_SIGN :: lit " Unexpected Error: " ++ excerpt)) /\
    excerpt = firstn 200 (text r) /\
    (List.length excerpt <= 200)%nat.
Proof.
  intros H H200 H400 H401 H429.
  exists (prefix 200 (text r)); split; [|split].
  - now apply fetch_unexpected.
  - reflexivity.
  - apply prefix_length.
Qed.

(** The 400 branch echoes the body as it came, whatever its length. *)
Lemma bad_request_echoes_body (env : Env) (endpoint : str)
    (params : option (dict pyval)) (w : World) (r : Response) :
  requests_get env (outbound env endpoint params) = inr r ->
  status_code r = 400%Z ->
  exists detail,
    fst (fetch_from_cryptocompare env endpoint params w) =
    inl (HTTPException 400 detail) /\
    detail = CROSS_MARK :: lit " Bad Request: " ++ text r /\
    List.length detail = (15 + List.length (text r))%nat.
Proof.
  intros H Hs; exists (CROSS_MARK :: lit " Bad Request: " ++ text r).
  split; [exact (@fetch_bad_request env endpoint params w r H Hs)|].
  split; [reflexivity|].
  change (CROSS_MARK :: lit " Bad Request: " ++ text r)
    with ((CROSS_MARK :: lit " Bad Request: ") ++ text r).
  rewrite length_app; reflexivity.
Qed.

(** C1: an echoed upstream error body is cut at 200 characters in both
    echoing branches.  The catch-all branch does so; the 400 branch does
    not: on a 400 answer whose body has 201 characters the failure message
    carries all 201 of them, while the same body under status 500 is cut
    to its first 200. *)
Theorem C1_bad_request_body_not_truncated :
  fst (fetch_from_cryptocompare
         (sample_env None (answers 400 long_body not_json))
         (lit "/price") None empty_world) =
  inl (HTTPException 400 (CROSS_MARK :: lit " Bad Request: " ++ long_body)) /\
  List.length long_body = 201%nat /\
  fst (fetch_from_cryptocompare
         (sample_env None (answers 500 long_body not_json))
         (lit "/price") None empty_world) =
  inl (HTTPException 500
         (WARNING_SIGN :: lit " Unexpected Error: " ++ firstn 200 long_body)).
Proof. repeat split; vm_compute; reflexivity. Qed.

(** ** The trace of the headers *)

Lemma headers_line_plain (env : Env) (key : str) :
  CRYPTOCOMPARE_API_KEY env = Some key ->
  forallb plain_char key = true ->
  headers_line env =
  MAGNIFIER :: lit " With headers: {'authorization': 'Apikey " ++ key ++ lit "'}".
Proof.
  intros Hkey Hplain.
  unfold headers_line, repr_headers, HEADERS, repr_dict, repr_item.
  rewrite Hkey; cbn [map fst snd join_str format_optional].
  rewrite (repr_str_plain (isprintable env) (lit "authorization")) by reflexivity.
  rewrite (repr_str_plain (isprintable env) (lit "Apikey " ++ key)).
  - f_equal. change (lit " With headers: {'authorization': 'Apikey " ++ key ++ lit "'}")
      with (lit " With headers: " ++ lit "{" ++ (APOSTROPHE :: lit "authorization" ++ [APOSTROPHE])
            ++ lit ": " ++ APOSTROPHE :: lit "Apikey " ++ key ++ lit "'}").
    repeat (rewrite <- ?app_assoc; cbn [app]).
    reflexivity.
  - rewrite forallb_app, Hplain; reflexivity.
Qed.

(** C2, as amended: the trace carries the header mapping as it is, with
    nothing redacted.  Every call prints the URL line, the header line and
    the parameter line first, and for a credential of plain characters
    (printable ASCII other than the quotes and the backslash) the header
    line is [{'authorization': 'Apikey <credential>'}], so it contains the
    credential. *)
Theorem C2_headers_traced_unredacted (env : Env) (endpoint : str)
    (params : option (dict pyval)) (w : World) (key : str) :
  CRYPTOCOMPARE_API_KEY env = Some key ->
  forallb plain_char key = true ->
  (exists rest,
     stdout (snd (fetch_from_cryptocompare env endpoint params w)) =
     stdout w ++ [url_line endpoint; headers_line env; params_line env params] ++ rest) /\
  headers_line env =
  MAGNIFIER :: lit " With headers: {'authorization': 'Apikey " ++ key ++ lit "'}" /\
  shows key (headers_line env) = true.
Proof.
  intros Hkey Hplain; split; [apply fetch_trace|].
  pose proof (headers_line_plain env Hkey Hplain) as Hline.
  split; [exact Hline|].
  rewrite Hline; unfold shows.
  change (MAGNIFIER :: lit " With headers: {'authorization': 'Apikey " ++ key ++ lit "'}")
    with ((MAGNIFIER :: lit " With headers: {'authorization': 'Apikey ") ++ key ++ lit "'}").
  apply contains_app.
Qed.

Lemma C2_headers_traced_unredacted_witness :
  let env := sample_env (Some (lit "SECRET")) (unreachable (lit "timed out")) in
  (exists rest,
     stdout (snd (fetch_from_cryptocompare env (lit "/price") probe_params empty_world)) =
     stdout empty_world ++
     [url_line (lit "/price"); headers_line env; params_line env probe_params] ++ rest) /\
  headers_line env =
  MAGNIFIER :: lit " With headers: {'authorization': 'Apikey " ++ lit "SECRET" ++ lit "'}" /\
  shows (lit "SECRET") (headers_line env) = true.
Proof.
  intros env.
  apply (@C2_headers_traced_unredacted env (lit "/price") probe_params empty_world
           (lit "SECRET")); reflexivity.
Defined.

(** C2, as stated, fails: with the credential [SECRET] configured, the
    header line of the trace shows it. *)
Lemma C2_trace_shows_credential :
  let env := sample_env (Some (lit "SECRET")) (unreachable (lit "timed out")) in
  ~ credential_redacted env
      (snd (fetch_from_cryptocompare env (lit "/price") probe_params empty_world)).
Proof.
  intros env Hredacted.
  specialize (Hredacted (lit "SECRET") (headers_line env) eq_refl).
  assert (Hshown : shows (lit "SECRET") (headers_line env) = true) by (vm_compute; reflexivity).
  rewrite Hredacted in Hshown; [discriminate| |].
  - vm_compute; right; left; reflexivity.
  - vm_compute; reflexivity.
Qed.

(** ** The fixed messages *)

Lemma contains_longer (s secret : str) :
  (List.length s < List.length secret)%nat -> contains s secret = false.
Proof.
  intros Hlen; destruct (contains s secret) eqn:E; [|reflexivity].
  apply contains_length in E; lia.
Qed.

(** Two runs that both meet a 401 raise the same failure, whatever their
    credentials, requests and upstream bodies. *)
Lemma unauthorized_noninterference (env1 env2 : Env) (endpoint1 endpoint2 : str)
    (params1 params2 : option (dict pyval)) (w1 w2 : World) (r1 r2 : Response) :
  requests_get env1 (outbound env1 endpoint1 params1) = inr r1 ->
  requests_get env2 (outbound env2 endpoint2 params2) = inr r2 ->
  status_code r1 = 401%Z -> status_code r2 = 401%Z ->
  fst (fetch_from_cryptocompare env1 endpoint1 params1 w1) =
  fst (fetch_from_cryptocompare env2 endpoint2 params2 w2).
Proof.
  intros H1 H2 Hs1 Hs2.
  rewrite (@fetch_unauthorized env1 endpoint1 params1 w1 r1 H1 Hs1).
  now rewrite (@fetch_unauthorized env2 endpoint2 params2 w2 r2 H2 Hs2).
Qed.

(** C4, as amended: an upstream 401 becomes the failure Unauthorized
    (status 401) whose message is the fixed text of the source, built from
    neither the upstream body nor the credential: every other run that
    meets a 401, under whatever credential and with whatever body, raises
    the very same failure; and the text being 17 characters long, no
    credential and no body longer than that occurs in it. *)
Theorem C4_unauthorized_message_fixed (env : Env) (endpoint : str)
    (params : option (dict pyval)) (w : World) (r : Response) :
  requests_get env (outbound env endpoint params) = inr r ->
  status_code r = 401%Z ->
  exists detail,
    fst (fetch_from_cryptocompare env endpoint params w) =
    inl (HTTPException 401 detail) /\
    detail = CROSS_MARK :: lit " Invalid API Key" /\
    (forall env' endpoint' params' w' r',
       requests_get env' (outbound env' endpoint' params') = inr r' ->
       status_code r' = 401%Z ->
       fst (fetch_from_cryptocompare env' endpoint' params' w') =
       inl (HTTPException 401 detail)) /\
    (forall key, CRYPTOCOMPARE_API_KEY env = Some key ->
                 (17 < List.length key)%nat -> shows key detail = false) /\
    ((17 < List.length (text r))%nat -> shows (text r) detail = false).
Proof.
  intros H Hs; exists (CROSS_MARK :: lit " Invalid API Key").
  split; [exact (@fetch_unauthorized env endpoint params w r H Hs)|].
  split; [reflexivity|].
  split; [intros env' endpoint' params' w' r' H' Hs'; now apply fetch_unauthorized with r'|].
  split; [intros key _ Hlen|intros Hlen]; apply contains_longer; exact Hlen.
Qed.

Lemma C4_unauthorized_message_fixed_witness :
  let key := lit "0123456789abcdef0123456789abcdef" in
  let body := lit "{'Message':'Invalid key 0123456789abcdef0123456789abcdef'}" in
  let env := sample_env (Some key) (answers 401 body not_json) in
  let env' := sample_env (Some (lit "another-key")) (answers 401 [] not_json) in
  exists detail,
    fst (fetch_from_cryptocompare env (lit "/price") probe_params empty_world) =
    inl (HTTPException 401 detail) /\
    detail = CROSS_MARK :: lit " Invalid API Key" /\
    fst (fetch_from_cryptocompare env' (lit "/top/pairs") None empty_world) =
    inl (HTTPException 401 detail) /\
    shows key detail = false /\
    shows body detail = false.
Proof.
  intros key body env env'.
  destruct (@C4_unauthorized_message_fixed env (lit "/price") probe_params empty_world
              (mkResponse 401 body not_json) eq_refl eq_refl)
    as (detail & Hrun & Hdetail & Hother & Hkey & Hbody).
  exists detail; split; [exact Hrun|]; split; [exact Hdetail|]; split.
  - apply (Hother env' (lit "/top/pairs") None empty_world (mkResponse 401 [] not_json));
      reflexivity.
  - split; [apply Hkey; [reflexivity|vm_compute; lia]|apply Hbody; vm_compute; lia].
Defined.

(** C4, as stated, fails for a credential that is itself a fragment of
    the fixed text: with the credential [Key] configured, the message of
    the 401 failure, which ends in [Key], contains it; so does it contain
    the empty credential. *)
Lemma C4_message_contains_fragment_credential :
  let env := sample_env (Some (lit "Key")) (answers 401 (lit "denied") not_json) in
  let outcome := fst (fetch_from_cryptocompare env (lit "/price") probe_params empty_world) in
  outcome = inl (HTTPException 401 (CROSS_MARK :: lit " Invalid API Key")) /\
  shows (lit "Key") (CROSS_MARK :: lit " Invalid API Key") = true /\
  shows [] (CROSS_MARK :: lit " Invalid API Key") = true /\
  ~ message_hides_credential env outcome.
Proof.
  intros env outcome.
  assert (Hrun : outcome = inl (HTTPException 401 (CROSS_MARK :: lit " Invalid API Key")))
    by reflexivity.
  split; [exact Hrun|]; split; [reflexivity|]; split; [reflexivity|].
  intros Hhides.
  specialize (Hhides (lit "Key") 401%Z (CROSS_MARK :: lit " Invalid API Key") eq_refl Hrun).
  vm_compute in Hhides; discriminate.
Qed.

(** ** The key check *)

Lemma test_api_key_run (env : Env) (w : World) :
  test_api_key env w =
  match fetch_from_cryptocompare env (lit "/price") probe_params w with
  | (inl e, w') => (inr (key_error_body env e), w')
  | (inr price, w') => (inr (key_valid_body price), w')
  end.
Proof.
  unfold test_api_key, try_except_Exception, bind, ret; fold probe_params.
  destruct (fetch_from_cryptocompare env (lit "/price") probe_params w) as [[e|price] w'];
    reflexivity.
Qed.

(** The key check never raises. *)
Lemma test_api_key_returns (env : Env) (w : World) :
  exists body, fst (test_api_key env w) = inr body.
Proof.
  rewrite test_api_key_run.
  destruct (fetch_from_cryptocompare env (lit "/price") probe_params w) as [[e|price] w'];
    eexists; reflexivity.
Qed.

(** C5: whatever failure the upstream call raises, classified or a
    transport error, [test_api_key] returns a body in band, with [status]
    equal to ["error"] and a [message]; and it returns a body on every run,
    so no failure reaches the transport layer. *)
Theorem C5_test_api_key_reports_in_band (env : Env) (w : World) :
  (exists body, fst (test_api_key env w) = inr body) /\
  (forall e,
     fst (fetch_from_cryptocompare env (lit "/price") probe_params w) = inl e ->
     exists body message,
       fst (test_api_key env w) = inr body /\
       field (lit "status") body = Some (JStr (lit "error")) /\
       field (lit "message") body = Some (JStr message) /\
       field (lit "price") body = None).
Proof.
  split; [apply test_api_key_returns|].
  intros e He; rewrite test_api_key_run.
  destruct (fetch_from_cryptocompare env (lit "/price") probe_params w) as [[e'|price] w'];
    cbn [fst] in He; [|discriminate].
  exists (key_error_body env e'); eexists; repeat split; reflexivity.
Qed.

Lemma C5_test_api_key_reports_in_band_witness :
  let env := sample_env (Some (lit "SECRET")) (unreachable (lit "timed out")) in
  (exists body, fst (test_api_key env empty_world) = inr body) /\
  (exists body message,
     fst (test_api_key env empty_world) = inr body /\
     field (lit "status") body = Some (JStr (lit "error")) /\
     field (lit "message") body = Some (JStr message) /\
     field (lit "price") body = None).
Proof.
  intros env.
  destruct (C5_test_api_key_reports_in_band env empty_world) as [Hret Herr].
  split; [exact Hret|].
  apply (Herr (HTTPException 500 (CROSS_MARK :: lit " Connection Error: timed out"))).
  reflexivity.
Defined.

(** C10: for every failure caught in [test_api_key], of whatever kind, the
    message returned is the fixed prefix followed by [str(e)]. *)
Theorem C10_error_message_prefix (env : Env) (w : World) (e : exn) :
  fst (fetch_from_cryptocompare env (lit "/price") probe_params w) = inl e ->
  exists message,
    fst (test_api_key env w) =
    inr (JDict [(lit "status", JStr (lit "error")); (lit "message", JStr message)]) /\
    message = CROSS_MARK :: lit " Connection Error: " ++ exn_str env e /\
    startswith message (CROSS_MARK :: lit " Connection Error: ") = true.
Proof.
  intros He; rewrite test_api_key_run.
  destruct (fetch_from_cryptocompare env (lit "/price") probe_params w) as [[e'|price] w'];
    cbn [fst] in He; [|discriminate].
  injection He as ->.
  eexists; split; [reflexivity|]; split; [reflexivity|].
  change (CROSS_MARK :: lit " Connection Error: " ++ exn_str env e)
    with ((CROSS_MARK :: lit " Connection Error: ") ++ exn_str env e).
  apply startswith_app.
Qed.

Lemma C10_error_message_prefix_witness :
  let env := sample_env (Some (lit "SECRET")) (answers 429 (lit "slow down") not_json) in
  exists message,
    fst (test_api_key env empty_world) =
    inr (JDict [(lit "status", JStr (lit "error")); (lit "message", JStr message)]) /\
    message =
    CROSS_MARK :: lit " Connection Error: " ++
    exn_str env (HTTPException 429
                   (CROSS_MARK :: lit " Rate limit exceeded. Please try again later.")) /\
    startswith message (CROSS_MARK :: lit " Connection Error: ") = true.
Proof.
  intros env.
  apply (@C10_error_message_prefix env empty_world); reflexivity.
Defined.

(** Each kind of failure reaches the handler of [test_api_key]: the four
    classified by status and the transport error. *)
Lemma test_api_key_failure_kinds (key : option str) (body message : str) :
  let prefixed env := startswith
      match fst (test_api_key env empty_world) with
      | inr reply => match field (lit "message") reply with
                     | Some (JStr m) => m
                     | _ => []
                     end
      | inl _ => []
      end (CROSS_MARK :: lit " Connection Error: ") in
  prefixed (sample_env key (answers 400 body not_json)) = true /\
  prefixed (sample_env key (answers 401 body not_json)) = true /\
  prefixed (sample_env key (answers 429 body not_json)) = true /\
  prefixed (sample_env key (answers 503 body not_json)) = true /\
  prefixed (sample_env key (unreachable message)) = true.
Proof. cbv zeta; repeat split; reflexivity. Qed.

(** ** What the handlers send upstream *)

Lemma sent_upstream_fetch (env : Env) (endpoint name : str) (params : dict pyval) :
  sent_upstream name
    (fetch_from_cryptocompare env endpoint (Some params) empty_world) =
  [dict_get name params].
Proof. unfold sent_upstream; rewrite fetch_sent; reflexivity. Qed.

Lemma sent_upstream_get_price (env : Env) (name fsym tsyms : str) (e : option str) :
  str_eqb (lit "e") name = false ->
  sent_upstream name (get_price env fsym tsyms e empty_world) =
  [dict_get name [(lit "fsym", VStr (str_upper env fsym));
                  (lit "tsyms", VStr (str_upper env tsyms))]].
Proof.
  intros Hne; unfold get_price.
  now rewrite sent_upstream_fetch, (dict_get_with_exchange env).
Qed.

Lemma sent_upstream_get_pricemulti (env : Env) (name fsyms tsyms : str)
    (e : option str) :
  str_eqb (lit "e") name = false ->
  sent_upstream name (get_pricemulti env fsyms tsyms e empty_world) =
  [dict_get name [(lit "fsyms", VStr (str_upper env fsyms));
                  (lit "tsyms", VStr (str_upper env tsyms))]].
Proof.
  intros Hne; unfold get_pricemulti.
  now rewrite sent_upstream_fetch, (dict_get_with_exchange env).
Qed.

Lemma sent_upstream_get_histoday (env : Env) (name fsym tsym : str)
    (limit aggregate : Z) (e : option str) :
  str_eqb (lit "e") name = false ->
  sent_upstream name (get_histoday env fsym tsym limit aggregate e empty_world) =
  [dict_get name [(lit "fsym", VStr (str_upper env fsym));
                  (lit "tsym", VStr (str_upper env tsym));
                  (lit "limit", VInt (Z.min limit 2000));
                  (lit "aggregate", VInt aggregate)]].
Proof.
  intros Hne; unfold get_histoday.
  now rewrite sent_upstream_fetch, (dict_get_with_exchange env).
Qed.

Lemma sent_upstream_get_histohour (env : Env) (name fsym tsym : str)
    (limit aggregate : Z) (e : option str) :
  str_eqb (lit "e") name = false ->
  sent_upstream name (get_histohour env fsym tsym limit aggregate e empty_world) =
  [dict_get name [(lit "fsym", VStr (str_upper env fsym));
                  (lit "tsym", VStr (str_upper env tsym));
                  (lit "limit", VInt (Z.min limit 2000));
                  (lit "aggregate", VInt aggregate)]].
Proof.
  intros Hne; unfold get_histohour.
  now rewrite sent_upstream_fetch, (dict_get_with_exchange env).
Qed.

Lemma sent_upstream_get_top_pairs (env : Env) (name fsym : str) (limit : Z) :
  sent_upstream name (get_top_pairs env fsym limit empty_world) =
  [dict_get name [(lit "fsym", VStr (str_upper env fsym));
                  (lit "limit", VInt (Z.min limit 100))]].
Proof. unfold get_top_pairs; now rewrite sent_upstream_fetch. Qed.

(** The news handler sends its request whatever comes back. *)
Lemma get_news_sent (env : Env) (categories : option str) (limit : Z) (lang : str)
    (w : World) :
  exists params,
    sent (snd (get_news env categories limit lang w)) =
    sent w ++ [outbound env (lit "/v2/news/") (Some params)] /\
    dict_get (lit "limit") params = Some (VInt (Z.min limit 20)) /\
    dict_get (lit "lang") params = Some (VStr (str_upper env lang)).
Proof.
  unfold get_news.
  match goal with
  | |- context [fetch_from_cryptocompare env _ (Some ?p)] => exists p
  end.
  split.
  - unfold bind at 1.
    match goal with
    | |- context [fetch_from_cryptocompare env ?ep ?ps w] =>
        pose proof (@fetch_sent env ep ps w) as Hsent;
        destruct (fetch_from_cryptocompare env ep ps w) as [[e|full] w']
    end; cbn [snd] in *; [exact Hsent|].
    unfold bind, lift, ret.
    destruct (simplify_news full limit); exact Hsent.
  - destruct categories as [[|c s]|]; split; try reflexivity;
      now rewrite dict_get_set_other.
Qed.

Lemma sent_upstream_get_news (env : Env) (categories : option str) (limit : Z)
    (lang : str) :
  sent_upstream (lit "limit") (get_news env categories limit lang empty_world) =
  [Some (VInt (Z.min limit 20))].
Proof.
  destruct (get_news_sent env categories limit lang empty_world)
    as (params & Hsent & Hlimit & _).
  unfold sent_upstream; rewrite Hsent; cbn [map app sent empty_world outbound req_params].
  now rewrite Hlimit.
Qed.

(** C7: the limit sent upstream is [min(limit, ceiling)], with ceiling 2000
    for the daily and hourly history, 100 for the top pairs and 20 for the
    news; that is the ceiling when the limit is above it and the limit
    itself otherwise, negative limits included; and for every limit the
    request is sent. *)
Theorem C7_limit_clamped (env : Env) (limit : Z) (fsym tsym : str)
    (aggregate : Z) (e categories : option str) (lang : str) :
  let clamp ceiling := if (ceiling <? limit)%Z then ceiling else limit in
  sent_upstream (lit "limit")
    (get_histoday env fsym tsym limit aggregate e empty_world) =
  [Some (VInt (Z.min limit 2000))] /\
  sent_upstream (lit "limit")
    (get_histohour env fsym tsym limit aggregate e empty_world) =
  [Some (VInt (Z.min limit 2000))] /\
  sent_upstream (lit "limit") (get_top_pairs env fsym limit empty_world) =
  [Some (VInt (Z.min limit 100))] /\
  sent_upstream (lit "limit") (get_news env categories limit lang empty_world) =
  [Some (VInt (Z.min limit 20))] /\
  Z.min limit 2000 = clamp 2000%Z /\
  Z.min limit 100 = clamp 100%Z /\
  Z.min limit 20 = clamp 20%Z /\
  sent_upstream (lit "limit")
    (get_histoday env fsym tsym 5000 aggregate e empty_world) =
  [Some (VInt 2000)] /\
  sent_upstream (lit "limit")
    (get_histoday env fsym tsym (-7) aggregate e empty_world) =
  [Some (VInt (-7))].
Proof.
  intros clamp.
  assert (Hclamp : forall ceiling, Z.min limit ceiling = clamp ceiling).
  { intros ceiling; subst clamp; cbv beta.
    destruct (Z.ltb_spec ceiling limit); lia. }
  repeat split; try apply Hclamp.
  - now rewrite sent_upstream_get_histoday.
  - now rewrite sent_upstream_get_histohour.
  - now rewrite sent_upstream_get_top_pairs.
  - apply sent_upstream_get_news.
  - now rewrite sent_upstream_get_histoday.
  - now rewrite sent_upstream_get_histoday.
Qed.

(** On ASCII input [upper] shifts the small letters and keeps the rest. *)
Lemma str_upper_ascii (env : Env) (s : str) :
  is_ascii s = true -> str_upper env s = map ascii_upper s.
Proof. apply upper_ascii. Qed.

(** ** Reshaping the news *)

Lemma item_get_dict (d : dict JSON) (key : str) (default : JSON) :
  item_get (JDict d) key default =
  inr (match dict_get key d with
       | Some v => v
       | None => default
       end).
Proof. reflexivity. Qed.

(** The categories of a dict item whose field is a str, or absent. *)
Lemma item_categories_str (d : dict JSON) (categories : option str) :
  dict_get (lit "categories") d = option_map JStr categories ->
  item_categories (JDict d) =
  inr (JList (map JStr (split PIPE match categories with
                                   | Some s => s
                                   | None => []
                                   end))).
Proof.
  intros H; unfold item_categories; rewrite item_get_dict, H.
  destruct categories; reflexivity.
Qed.

(** The tags of a dict item whose field is a str, or absent. *)
Lemma item_tags_str (d : dict JSON) (tags : option str) :
  dict_get (lit "tags") d = option_map JStr tags ->
  item_tags (JDict d) =
  inr (JList (map JStr match tags with
                       | Some (c :: s) => split PIPE (c :: s)
                       | _ => []
                       end)).
Proof.
  intros H; unfold item_tags; rewrite !item_get_dict, H.
  destruct tags as [[|c s]|]; reflexivity.
Qed.

(** A dict item is reshaped as soon as its two sequences are. *)
Lemma simplified_item_dict (d : dict JSON) (categories tags : JSON) :
  item_categories (JDict d) = inr categories ->
  item_tags (JDict d) = inr tags ->
  exists reshaped,
    simplified_item (JDict d) = inr reshaped /\
    field (lit "categories") reshaped = Some categories /\
    field (lit "tags") reshaped = Some tags.
Proof.
  intros Hc Ht; unfold simplified_item.
  rewrite !item_get_dict, Hc, Ht; cbn [rbind].
  eexists; split; [reflexivity|]; split; reflexivity.
Qed.

(** Whatever is reshaped carries the categories that were computed. *)
Lemma simplified_item_categories (d : dict JSON) (reshaped : JSON) :
  simplified_item (JDict d) = inr reshaped ->
  item_categories (JDict d) = inr (match field (lit "categories") reshaped with
                                   | Some v => v
                                   | None => JNull
                                   end).
Proof.
  unfold simplified_item; rewrite !item_get_dict; cbn [rbind].
  destruct (item_categories (JDict d)) as [e|c]; cbn [rbind]; [discriminate|].
  destruct (item_tags (JDict d)) as [e|t]; cbn [rbind]; [discriminate|].
  intros [= <-]; reflexivity.
Qed.

(** C6: the reshaped item holds the pieces of the pipe-delimited category
    string, in order, and the pieces of the pipe-delimited tag string, in
    order, with no tags for an empty or absent tag field.  The pieces are
    those of a split: joined with the pipe they give the string back, and
    none of them holds a pipe. *)
Theorem C6_categories_and_tags_split (d : dict JSON) (categories : str)
    (tags : option str) :
  dict_get (lit "categories") d = Some (JStr categories) ->
  dict_get (lit "tags") d = option_map JStr tags ->
  let tag_pieces := match tags with
                    | Some (c :: s) => split PIPE (c :: s)
                    | _ => []
                    end in
  exists reshaped,
    simplified_item (JDict d) = inr reshaped /\
    field (lit "categories") reshaped =
    Some (JList (map JStr (split PIPE categories))) /\
    field (lit "tags") reshaped = Some (JList (map JStr tag_pieces)) /\
    join PIPE (split PIPE categories) = categories /\
    (forall piece, In piece (split PIPE categories) -> ~ In PIPE piece) /\
    (forall piece, In piece tag_pieces -> ~ In PIPE piece) /\
    (tag_pieces = [] <-> tags = None \/ tags = Some []).
Proof.
  intros Hc Ht tag_pieces.
  destruct (@simplified_item_dict d
              (JList (map JStr (split PIPE categories)))
              (JList (map JStr tag_pieces)))
    as (reshaped & Hrun & Hfc & Hft).
  - exact (@item_categories_str d (Some categories) Hc).
  - exact (@item_tags_str d tags Ht).
  - exists reshaped; repeat split; try assumption.
    + apply join_split.
    + intros piece; apply split_pieces_clean.
    + subst tag_pieces; destruct tags as [[|c s]|]; intros piece Hin;
        try (destruct Hin; fail).
      now apply split_pieces_clean in Hin.
    + subst tag_pieces; destruct tags as [[|c s]|]; intros H; auto.
      now apply split_nonempty in H.
    + subst tag_pieces; intros [->| ->]; reflexivity.
Qed.

Lemma C6_categories_and_tags_split_witness :
  exists reshaped,
    simplified_item btc_item = inr reshaped /\
    field (lit "categories") reshaped =
    Some (JList [JStr (lit "BTC"); JStr (lit "Regulation")]) /\
    field (lit "tags") reshaped = Some (JList []) /\
    join PIPE [lit "BTC"; lit "Regulation"] = lit "BTC|Regulation" /\
    (forall piece, In piece [lit "BTC"; lit "Regulation"] -> ~ In PIPE piece) /\
    (forall piece, In piece (@nil str) -> ~ In PIPE piece) /\
    (@nil str = [] <-> @None str = None \/ @None str = Some []).
Proof.
  apply (@C6_categories_and_tags_split
           [(lit "id", JStr (lit "42")); (lit "categories", JStr (lit "BTC|Regulation"))]
           (lit "BTC|Regulation") None); reflexivity.
Defined.

(** C9: when the categories field is absent or empty, the categories of
    the reshaped item are the one-element sequence holding the empty
    string, where the tags, in the same situation, are the empty
    sequence. *)
Theorem C9_empty_categories_one_piece (d : dict JSON) :
  dict_get (lit "categories") d = None \/
  dict_get (lit "categories") d = Some (JStr []) ->
  item_categories (JDict d) = inr (JList [JStr []]) /\
  (forall reshaped,
     simplified_item (JDict d) = inr reshaped ->
     field (lit "categories") reshaped = Some (JList [JStr []])) /\
  (dict_get (lit "tags") d = None \/ dict_get (lit "tags") d = Some (JStr []) ->
   item_tags (JDict d) = inr (JList []) /\
   exists reshaped,
     simplified_item (JDict d) = inr reshaped /\
     field (lit "categories") reshaped = Some (JList [JStr []]) /\
     field (lit "tags") reshaped = Some (JList [])).
Proof.
  intros Hc.
  assert (Hcat : item_categories (JDict d) = inr (JList [JStr []])).
  { destruct Hc as [Hc|Hc].
    - exact (@item_categories_str d None Hc).
    - exact (@item_categories_str d (Some []) Hc). }
  split; [exact Hcat|]; split.
  - intros reshaped Hrun.
    unfold simplified_item in Hrun; rewrite !item_get_dict, Hcat in Hrun.
    cbn [rbind] in Hrun.
    destruct (item_tags (JDict d)) as [e|t]; cbn [rbind] in Hrun; [discriminate|].
    injection Hrun as <-; reflexivity.
  - intros Ht.
    assert (Htags : item_tags (JDict d) = inr (JList [])).
    { destruct Ht as [Ht|Ht].
      - exact (@item_tags_str d None Ht).
      - exact (@item_tags_str d (Some []) Ht). }
    split; [exact Htags|].
    exact (@simplified_item_dict d _ _ Hcat Htags).
Qed.

Lemma C9_empty_categories_one_piece_witness :
  item_categories (JDict []) = inr (JList [JStr []]) /\
  (forall reshaped,
     simplified_item (JDict []) = inr reshaped ->
     field (lit "categories") reshaped = Some (JList [JStr []])) /\
  item_tags (JDict []) = inr (JList []) /\
  exists reshaped,
    simplified_item (JDict []) = inr reshaped /\
    field (lit "categories") reshaped = Some (JList [JStr []]) /\
    field (lit "tags") reshaped = Some (JList []).
Proof.
  destruct (@C9_empty_categories_one_piece []) as (Hcat & Hany & Htags).
  - left; reflexivity.
  - split; [exact Hcat|]; split; [exact Hany|].
    apply Htags; left; reflexivity.
Defined.

(** ** The news envelope *)

Lemma rmap_length (A B : Type) (f : A -> result B) (l : list A) (l' : list B) :
  rmap f l = inr l' -> List.length l' = List.length l.
Proof.
  revert l'; induction l as [|a l IH]; intros l'; cbn [rmap].
  - intros [= <-]; reflexivity.
  - destruct (f a) as [e|b]; cbn [rbind]; [discriminate|].
    destruct (rmap f l) as [e|bs]; cbn [rbind]; [discriminate|].
    intros [= <-]; cbn [List.length]; now rewrite (IH bs).
Qed.

Lemma slice_to_length (A : Type) (limit : Z) (l : list A) :
  (List.length (slice_to limit l) <= List.length l)%nat /\
  ((0 <= limit)%Z -> (Z.of_nat (List.length (slice_to limit l)) <= limit)%Z).
Proof.
  unfold slice_to; destruct (Z.ltb_spec limit 0); rewrite length_firstn; lia.
Qed.

(** A negative bound drops that many items from the end. *)
Lemma slice_to_negative (A : Type) (limit : Z) (l : list A) :
  (limit < 0)%Z ->
  List.length (slice_to limit l) = (List.length l - Z.to_nat (- limit))%nat.
Proof.
  intros H; unfold slice_to; apply Z.ltb_lt in H; rewrite H, length_firstn; lia.
Qed.

Lemma simplify_news_length (full_response : JSON) (limit : Z) (news : list JSON) :
  simplify_news full_response limit = inr news ->
  (0 <= limit)%Z -> (Z.of_nat (List.length news) <= limit)%Z.
Proof.
  unfold simplify_news; intros Hrun Hlimit.
  destruct (has_Data full_response) as [e|[|]]; cbn [rbind] in Hrun;
    try discriminate.
  - destruct (get_Data full_response) as [e|data]; cbn [rbind] in Hrun;
      [discriminate|].
    destruct data as [| | | | |items|];
      try (injection Hrun as <-; cbn [List.length]; lia).
    apply rmap_length in Hrun; rewrite Hrun.
    now apply slice_to_length.
  - injection Hrun as <-; cbn [List.length]; lia.
Qed.

(** A run of the news handler that returns went through the reshaping. *)
Lemma get_news_run (env : Env) (categories : option str) (limit : Z) (lang : str)
    (w w' : World) (body : JSON) :
  get_news env categories limit lang w = (inr body, w') ->
  exists full_response news,
    simplify_news full_response limit = inr news /\ body = envelope news.
Proof.
  unfold get_news, bind at 1.
  match goal with
  | |- context [fetch_from_cryptocompare env ?ep ?ps w] =>
      destruct (fetch_from_cryptocompare env ep ps w) as [[e|full] w1]
  end; [discriminate|].
  unfold bind, lift, ret.
  destruct (simplify_news full limit) as [e|news] eqn:Hnews; [discriminate|].
  intros [= <- _]; now exists full, news.
Qed.

(** C3, as amended: the envelope that the news handler returns has [count]
    equal to the length of [news], and that length is at most the requested
    limit whenever the limit is not negative. *)
Theorem C3_news_count_and_bound (env : Env) (categories : option str) (limit : Z)
    (lang : str) (w w' : World) (body : JSON) :
  get_news env categories limit lang w = (inr body, w') ->
  exists news,
    body = envelope news /\
    field (lit "status") body = Some (JStr (lit "success")) /\
    field (lit "news") body = Some (JList news) /\
    field (lit "count") body = Some (JInt (Z.of_nat (List.length news))) /\
    ((0 <= limit)%Z -> (Z.of_nat (List.length news) <= limit)%Z).
Proof.
  intros Hrun.
  destruct (get_news_run _ _ _ _ _ Hrun) as (full & news & Hnews & ->).
  exists news; repeat split.
  now apply (simplify_news_length full).
Qed.

Lemma C3_news_count_and_bound_witness :
  let env := sample_env None (answers 200 [] two_items) in
  exists w' body,
    get_news env None 1 (lit "EN") empty_world = (inr body, w') /\
    exists news,
      body = envelope news /\
      field (lit "status") body = Some (JStr (lit "success")) /\
      field (lit "news") body = Some (JList news) /\
      field (lit "count") body = Some (JInt (Z.of_nat (List.length news))) /\
      ((0 <= 1)%Z -> (Z.of_nat (List.length news) <= 1)%Z).
Proof.
  intros env; do 2 eexists; split; [vm_compute; reflexivity|].
  eapply (@C3_news_count_and_bound env None 1%Z (lit "EN") empty_world).
  vm_compute; reflexivity.
Defined.

(** C3, as stated, fails on a negative limit: asked for [-1] items of an
    upstream list of two, the handler returns one item, and one is more
    than minus one. *)
Lemma C3_negative_limit_exceeded :
  let env := sample_env None (answers 200 [] two_items) in
  exists body,
    fst (get_news env None (-1) (lit "EN") empty_world) = inr body /\
    field (lit "count") body = Some (JInt 1) /\
    ~ news_within_limit (-1) body.
Proof.
  intros env; eexists; split; [vm_compute; reflexivity|].
  split; [reflexivity|].
  intros (news & Hnews & _ & Hle).
  injection Hnews as <-; cbn [List.length] in Hle; lia.
Qed.





(** ** The helper, branch by branch *)

(** What the helper raises is an [HTTPException], unless the network or
    the decoder raised something that is not a [RequestException], which
    passes through; a [RequestException] never leaves the helper. *)
Theorem fetch_failures_classified (env : Env) (endpoint : str)
    (params : option (dict pyval)) (w : World) (e : exn) :
  fst (fetch_from_cryptocompare env endpoint params w) = inl e ->
  (forall message, e <> RequestException message) /\
  ((exists status detail, e = HTTPException status detail) \/
   requests_get env (outbound env endpoint params) = inl e \/
   (exists r, requests_get env (outbound env endpoint params) = inr r /\
              status_code r = 200%Z /\ json r = inl e)).
Proof.
  run_fetch; fold (outbound env endpoint params).
  destruct (requests_get env (outbound env endpoint params)) as [e'|r] eqn:Hnet.
  - destruct e'; cbn [fst]; intros [= <-]; (split; [discriminate|]); eauto.
  - destruct (Z.eqb_spec (status_code r) 200) as [H200|H200].
    + destruct (json r) as [e'|body] eqn:Hjson; cbn [fst]; [|discriminate].
      destruct e'; cbn [fst]; intros [= <-]; (split; [discriminate|]); eauto 6.
    + repeat match goal with
             | |- context [if ?c then _ else _] => destruct c
             end;
        cbn [fst]; intros [= <-]; (split; [discriminate|]); eauto.
Qed.

Lemma fetch_failures_classified_witness :
  let env := sample_env None (answers 200 (lit "<html>") not_json) in
  let e := HTTPException 500
             (CROSS_MARK :: lit " Connection Error: Expecting value: line 1 column 1 (char 0)") in
  (forall message, e <> RequestException message) /\
  ((exists status detail, e = HTTPException status detail) \/
   requests_get env (outbound env (lit "/price") None) = inl e \/
   (exists r, requests_get env (outbound env (lit "/price") None) = inr r /\
              status_code r = 200%Z /\ json r = inl e)).
Proof.
  intros env e.
  apply (@fetch_failures_classified env (lit "/price") None empty_world e).
  reflexivity.
Defined.

(** Any answer other than 200, a 204 or a 302 as much as a 503, is a
    failure that carries the upstream status and a message. *)
Theorem non_200_status_carried_over (env : Env) (endpoint : str)
    (params : option (dict pyval)) (w : World) (r : Response) :
  requests_get env (outbound env endpoint params) = inr r ->
  status_code r <> 200%Z ->
  exists detail,
    fst (fetch_from_cryptocompare env endpoint params w) =
    inl (HTTPException (status_code r) detail) /\
    detail <> [].
Proof.
  intros Hnet H200.
  destruct (Z.eq_dec (status_code r) 400) as [H400|H400];
    [|destruct (Z.eq_dec (status_code r) 401) as [H401|H401];
      [|destruct (Z.eq_dec (status_code r) 429) as [H429|H429]]].
  - eexists; split;
      [rewrite H400; exact (@fetch_bad_request env endpoint params w r Hnet H400)
      |discriminate].
  - eexists; split;
      [rewrite H401; exact (@fetch_unauthorized env endpoint params w r Hnet H401)
      |discriminate].
  - eexists; split;
      [rewrite H429; exact (@fetch_rate_limited env endpoint params w r Hnet H429)
      |discriminate].
  - eexists; split;
      [exact (@fetch_unexpected env endpoint params w r Hnet H200 H400 H401 H429)
      |discriminate].
Qed.

Lemma non_200_status_carried_over_witness :
  let env := sample_env None (answers 204 [] not_json) in
  exists detail,
    fst (fetch_from_cryptocompare env (lit "/price") None empty_world) =
    inl (HTTPException 204 detail) /\
    detail <> [].
Proof.
  intros env.
  apply (@non_200_status_carried_over env (lit "/price") None empty_world
           (mkResponse 204 [] not_json)); [reflexivity|discriminate].
Defined.

(** On a 200 the helper returns the decoded body as it is; a body that
    does not decode is reported as a 500 connection error when the decoder
    raises a [RequestException], and the decoder's error passes through
    otherwise. *)
Theorem ok_answer_decoded_or_reported (env : Env) (endpoint : str)
    (params : option (dict pyval)) (w : World) (r : Response) :
  requests_get env (outbound env endpoint params) = inr r ->
  status_code r = 200%Z ->
  fst (fetch_from_cryptocompare env endpoint params w) =
  match json r with
  | inr body => inr body
  | inl (RequestException message) =>
      inl (HTTPException 500 (CROSS_MARK :: lit " Connection Error: " ++ message))
  | inl other => inl other
  end.
Proof.
  intros Hnet H200; run_fetch; fold (outbound env endpoint params).
  rewrite Hnet, H200; cbn [Z.eqb Pos.eqb].
  destruct (json r) as [[]|]; reflexivity.
Qed.

Lemma ok_answer_decoded_or_reported_witness :
  let env := sample_env None (answers 200 (lit "{}") (inr (JDict []))) in
  fst (fetch_from_cryptocompare env (lit "/price") None empty_world) = inr (JDict []).
Proof.
  intros env.
  apply (@ok_answer_decoded_or_reported env (lit "/price") None empty_world
           (mkResponse 200 (lit "{}") (inr (JDict [])))); reflexivity.
Defined.

(** Two runs that both meet a 429 raise the same failure, with the fixed
    text of the source: nothing of the upstream body is echoed. *)
Theorem rate_limited_message_fixed (env1 env2 : Env) (endpoint1 endpoint2 : str)
    (params1 params2 : option (dict pyval)) (w1 w2 : World) (r1 r2 : Response) :
  requests_get env1 (outbound env1 endpoint1 params1) = inr r1 ->
  requests_get env2 (outbound env2 endpoint2 params2) = inr r2 ->
  status_code r1 = 429%Z -> status_code r2 = 429%Z ->
  fst (fetch_from_cryptocompare env1 endpoint1 params1 w1) =
  fst (fetch_from_cryptocompare env2 endpoint2 params2 w2) /\
  fst (fetch_from_cryptocompare env1 endpoint1 params1 w1) =
  inl (HTTPException 429
         (CROSS_MARK :: lit " Rate limit exceeded. Please try again later.")).
Proof.
  intros H1 H2 Hs1 Hs2.
  rewrite (@fetch_rate_limited env1 endpoint1 params1 w1 r1 H1 Hs1).
  rewrite (@fetch_rate_limited env2 endpoint2 params2 w2 r2 H2 Hs2).
  split; reflexivity.
Qed.

Lemma rate_limited_message_fixed_witness :
  let env1 := sample_env (Some (lit "k1")) (answers 429 (lit "slow down") not_json) in
  let env2 := sample_env None (answers 429 [] (inr JNull)) in
  fst (fetch_from_cryptocompare env1 (lit "/price") probe_params empty_world) =
  fst (fetch_from_cryptocompare env2 (lit "/top/pairs") None empty_world) /\
  fst (fetch_from_cryptocompare env1 (lit "/price") probe_params empty_world) =
  inl (HTTPException 429
         (CROSS_MARK :: lit " Rate limit exceeded. Please try again later.")).
Proof.
  intros env1 env2.
  apply (@rate_limited_message_fixed env1 env2 (lit "/price") (lit "/top/pairs")
           probe_params None empty_world empty_world
           (mkResponse 429 (lit "slow down") not_json) (mkResponse 429 [] (inr JNull)));
    reflexivity.
Defined.

(** A transport failure becomes a 500 whose message ends with the text of
    the transport error, so it is never empty; the request was sent once,
    and the trace shows the error where the status line would be. *)
Theorem transport_failure_reported (env : Env) (endpoint : str)
    (params : option (dict pyval)) (w : World) (message : str) :
  requests_get env (outbound env endpoint params) = inl (RequestException message) ->
  fetch_from_cryptocompare env endpoint params w =
  (inl (HTTPException 500 (CROSS_MARK :: lit " Connection Error: " ++ message)),
   mkWorld (stdout w ++ [url_line endpoint; headers_line env; params_line env params;
                         CROSS_MARK :: lit " Request error: " ++ message])
           (sent w ++ [outbound env endpoint params])) /\
  CROSS_MARK :: lit " Connection Error: " ++ message <> [] /\
  skipn 20 (CROSS_MARK :: lit " Connection Error: " ++ message) = message.
Proof.
  intros Hnet; split; [|split; [discriminate|reflexivity]].
  run_fetch; fold (outbound env endpoint params).
  fold (url_line endpoint) (headers_line env) (params_line env params).
  rewrite Hnet; cbn [fst snd stdout sent].
  rewrite <- !app_assoc; reflexivity.
Qed.

Lemma transport_failure_reported_witness :
  let env := sample_env None (unreachable (lit "timed out")) in
  fetch_from_cryptocompare env (lit "/price") None empty_world =
  (inl (HTTPException 500 (CROSS_MARK :: lit " Connection Error: " ++ lit "timed out")),
   mkWorld (stdout empty_world ++
            [url_line (lit "/price"); headers_line env; params_line env None;
             CROSS_MARK :: lit " Request error: " ++ lit "timed out"])
           (sent empty_world ++ [outbound env (lit "/price") None])) /\
  CROSS_MARK :: lit " Connection Error: " ++ lit "timed out" <> [] /\
  skipn 20 (CROSS_MARK :: lit " Connection Error: " ++ lit "timed out") = lit "timed out".
Proof.
  intros env.
  apply (@transport_failure_reported env (lit "/price") None empty_world (lit "timed out")).
  reflexivity.
Defined.

(** On any answer other than 200 the trace is five lines: the URL, the
    headers, the parameters, the status, and a labelled line that carries
    the upstream body whole, also where the failure message is cut. *)
Theorem upstream_error_body_traced_whole (env : Env) (endpoint : str)
    (params : option (dict pyval)) (w : World) (r : Response) :
  requests_get env (outbound env endpoint params) = inr r ->
  status_code r <> 200%Z ->
  exists label,
    stdout (snd (fetch_from_cryptocompare env endpoint params w)) =
    stdout w ++
    [url_line endpoint; headers_line env; params_line env params;
     CHECK_MARK :: lit " Response status: " ++ str_of_int (status_code r);
     label ++ text r] /\
    label <> [].
Proof.
  intros Hnet H200; run_fetch; fold (outbound env endpoint params).
  fold (url_line endpoint) (headers_line env) (params_line env params).
  rewrite Hnet; apply Z.eqb_neq in H200; rewrite H200.
  destruct (Z.eqb (status_code r) 400);
    [exists (CROSS_MARK :: lit " Bad Request: ")|
     destruct (Z.eqb (status_code r) 401);
     [exists (CROSS_MARK :: lit " Unauthorized: ")|
      destruct (Z.eqb (status_code r) 429);
      [exists (CROSS_MARK :: lit " Too Many Requests: ")|
       exists (WARNING_SIGN :: lit " Unexpected Error: ")]]];
    (split; [|discriminate]);
    cbn [fst snd stdout sent]; rewrite <- !app_assoc; reflexivity.
Qed.

Lemma upstream_error_body_traced_whole_witness :
  let env := sample_env None (answers 500 long_body not_json) in
  exists label,
    stdout (snd (fetch_from_cryptocompare env (lit "/price") None empty_world)) =
    stdout empty_world ++
    [url_line (lit "/price"); headers_line env; params_line env None;
     CHECK_MARK :: lit " Response status: " ++ str_of_int 500;
     label ++ long_body] /\
    label <> [].
Proof.
  intros env.
  apply (@upstream_error_body_traced_whole env (lit "/price") None empty_world
           (mkResponse 500 long_body not_json)); [reflexivity|discriminate].
Defined.

(** The message of the catch-all branch is the label and at most 200
    characters of the body, 220 characters at most; a body of 200
    characters or fewer is echoed whole. *)
Theorem unexpected_error_message_bounded (env : Env) (endpoint : str)
    (params : option (dict pyval)) (w : World) (r : Response) :
  requests_get env (outbound env endpoint params) = inr r ->
  status_code r <> 200%Z -> status_code r <> 400%Z ->
  status_code r <> 401%Z -> status_code r <> 429%Z ->
  exists detail,
    fst (fetch_from_cryptocompare env endpoint params w) =
    inl (HTTPException (status_code r) detail) /\
    (List.length detail <= 220)%nat /\
    startswith detail (WARNING_SIGN :: lit " Unexpected Error: ") = true /\
    ((List.length (text r) <= 200)%nat ->
     detail = WARNING_SIGN :: lit " Unexpected Error: " ++ text r) /\
    ((200 < List.length (text r))%nat -> List.length detail = 220%nat).
Proof.
  intros Hnet H200 H400 H401 H429.
  exists (WARNING_SIGN :: lit " Unexpected Error: " ++ prefix 200 (text r)).
  split; [exact (@fetch_unexpected env endpoint params w r Hnet H200 H400 H401 H429)|].
  change (WARNING_SIGN :: lit " Unexpected Error: " ++ prefix 200 (text r))
    with ((WARNING_SIGN :: lit " Unexpected Error: ") ++ prefix 200 (text r)).
  pose proof (prefix_length 200 (text r)) as Hlen.
  repeat split.
  - rewrite length_app; change (List.length (WARNING_SIGN :: lit " Unexpected Error: "))
      with 20%nat; lia.
  - apply startswith_app.
  - intros Hshort; now rewrite prefix_short.
  - intros Hlong; rewrite length_app; unfold prefix; rewrite length_firstn.
    change (List.length (WARNING_SIGN :: lit " Unexpected Error: ")) with 20%nat; lia.
Qed.

Lemma unexpected_error_message_bounded_witness :
  let env := sample_env None (answers 503 long_body not_json) in
  exists detail,
    fst (fetch_from_cryptocompare env (lit "/price") None empty_world) =
    inl (HTTPException 503 detail) /\
    (List.length detail <= 220)%nat /\
    startswith detail (WARNING_SIGN :: lit " Unexpected Error: ") = true /\
    ((List.length long_body <= 200)%nat ->
     detail = WARNING_SIGN :: lit " Unexpected Error: " ++ long_body) /\
    ((200 < List.length long_body)%nat -> List.length detail = 220%nat).
Proof.
  intros env.
  apply (@unexpected_error_message_bounded env (lit "/price") None empty_world
           (mkResponse 503 long_body not_json)); [reflexivity|discriminate..].
Defined.

(** Every request carries one header, [authorization], whose value is
    [Apikey] and the credential; with the environment variable unset the
    request still leaves, carrying the text [Apikey None]. *)
Theorem authorization_header_sent (env : Env) (endpoint : str)
    (params : option (dict pyval)) (w : World) :
  exists value,
    sent (snd (fetch_from_cryptocompare env endpoint params w)) =
    sent w ++ [mkRequest (BASE_URL ++ endpoint) [(lit "authorization", value)] params] /\
    (forall key, CRYPTOCOMPARE_API_KEY env = Some key -> value = lit "Apikey " ++ key) /\
    (CRYPTOCOMPARE_API_KEY env = None -> value = lit "Apikey None").
Proof.
  exists (lit "Apikey " ++ format_optional (CRYPTOCOMPARE_API_KEY env)).
  split; [apply fetch_sent|].
  split; [intros key ->|intros ->]; reflexivity.
Qed.

Lemma authorization_header_sent_witness :
  let env := sample_env None (unreachable []) in
  exists value,
    sent (snd (fetch_from_cryptocompare env (lit "/price") None empty_world)) =
    sent empty_world ++
    [mkRequest (BASE_URL ++ lit "/price") [(lit "authorization", value)] None] /\
    value = lit "Apikey None".
Proof.
  intros env.
  destruct (@authorization_header_sent env (lit "/price") None empty_world)
    as (value & Hsent & _ & Hnone).
  exists value; split; [exact Hsent|apply Hnone; reflexivity].
Defined.

(** ** One request per handler *)

Lemma get_news_sent_exact (env : Env) (categories : option str) (limit : Z)
    (lang : str) (w : World) :
  sent (snd (get_news env categories limit lang w)) =
  sent w ++
  [request_to env "https://min-api.cryptocompare.com/data/v2/news/"
     ([(lit "limit", VInt (Z.min limit 20)); (lit "lang", VStr (str_upper env lang))]
      ++ optional_entry (lit "categories") categories)].
Proof.
  unfold get_news, bind at 1.
  match goal with
  | |- context [fetch_from_cryptocompare env ?ep ?ps w] =>
      pose proof (@fetch_sent env ep ps w) as Hsent;
      destruct (fetch_from_cryptocompare env ep ps w) as [[e|full] w']
  end; cbn [snd] in *.
  - rewrite Hsent; destruct categories as [[|c s]|]; reflexivity.
  - unfold bind, lift, ret.
    destruct (simplify_news full limit); cbn [snd]; rewrite Hsent;
      destruct categories as [[|c s]|]; reflexivity.
Qed.

(** The two price handlers send one request each, whatever comes back: to
    [/price] and [/pricemulti], with the two symbol parameters in upper
    case and the exchange, as given, only when it is not empty. *)
Theorem price_requests_exact (env : Env) (fsym fsyms tsyms : str) (e : option str)
    (w : World) :
  sent (snd (get_price env fsym tsyms e w)) =
  sent w ++
  [request_to env "https://min-api.cryptocompare.com/data/price"
     ([(lit "fsym", VStr (str_upper env fsym));
       (lit "tsyms", VStr (str_upper env tsyms))] ++ optional_entry (lit "e") e)] /\
  sent (snd (get_pricemulti env fsyms tsyms e w)) =
  sent w ++
  [request_to env "https://min-api.cryptocompare.com/data/pricemulti"
     ([(lit "fsyms", VStr (str_upper env fsyms));
       (lit "tsyms", VStr (str_upper env tsyms))] ++ optional_entry (lit "e") e)].
Proof.
  split.
  - unfold get_price; rewrite fetch_sent; destruct e as [[|c s]|]; reflexivity.
  - unfold get_pricemulti; rewrite fetch_sent; destruct e as [[|c s]|]; reflexivity.
Qed.

(** The two history handlers send one request each, to [/v2/histoday] and
    [/v2/histohour], with the same mapping: the symbols in upper case, the
    limit capped at 2000, the aggregation level as given, whatever its
    sign, and the exchange only when it is not empty. *)
Theorem history_requests_exact (env : Env) (fsym tsym : str) (limit aggregate : Z)
    (e : option str) (w : World) :
  let params := [(lit "fsym", VStr (str_upper env fsym));
                 (lit "tsym", VStr (str_upper env tsym));
                 (lit "limit", VInt (Z.min limit 2000));
                 (lit "aggregate", VInt aggregate)] ++ optional_entry (lit "e") e in
  sent (snd (get_histoday env fsym tsym limit aggregate e w)) =
  sent w ++ [request_to env "https://min-api.cryptocompare.com/data/v2/histoday" params] /\
  sent (snd (get_histohour env fsym tsym limit aggregate e w)) =
  sent w ++ [request_to env "https://min-api.cryptocompare.com/data/v2/histohour" params].
Proof.
  split.
  - unfold get_histoday; rewrite fetch_sent; destruct e as [[|c s]|]; reflexivity.
  - unfold get_histohour; rewrite fetch_sent; destruct e as [[|c s]|]; reflexivity.
Qed.

(** The top-pairs handler sends one request to [/top/pairs] and never an
    exchange; the news handler sends one request to [/v2/news/] with the
    capped limit, the language in upper case, and the categories, as
    given, only when they are not empty. *)
Theorem top_pairs_and_news_requests_exact (env : Env) (fsym lang : str) (limit : Z)
    (categories : option str) (w : World) :
  sent (snd (get_top_pairs env fsym limit w)) =
  sent w ++
  [request_to env "https://min-api.cryptocompare.com/data/top/pairs"
     [(lit "fsym", VStr (str_upper env fsym));
      (lit "limit", VInt (Z.min limit 100))]] /\
  sent (snd (get_news env categories limit lang w)) =
  sent w ++
  [request_to env "https://min-api.cryptocompare.com/data/v2/news/"
     ([(lit "limit", VInt (Z.min limit 20)); (lit "lang", VStr (str_upper env lang))]
      ++ optional_entry (lit "categories") categories)].
Proof.
  split; [|apply get_news_sent_exact].
  unfold get_top_pairs; rewrite fetch_sent; reflexivity.
Qed.

(** The key check sends the same probe on every run, a price lookup of
    BTC in USD, once, and nothing else, whether it reports success or an
    error. *)
Theorem test_api_key_probe_exact (env : Env) (w : World) :
  sent (snd (test_api_key env w)) =
  sent w ++
  [request_to env "https://min-api.cryptocompare.com/data/price"
     [(lit "fsym", VStr (lit "BTC")); (lit "tsyms", VStr (lit "USD"))]].
Proof.
  rewrite test_api_key_run.
  pose proof (@fetch_sent env (lit "/price") probe_params w) as Hsent.
  destruct (fetch_from_cryptocompare env (lit "/price") probe_params w) as [[e|price] w'];
    exact Hsent.
Qed.

(** ** What the handlers return *)



(** ** The news handler, case by case *)









(** ** The reshaped items *)

Lemma split_pipe_shape (value reshaped : JSON) :
  split_pipe value = inr reshaped ->
  exists piece pieces, reshaped = JList (map JStr (piece :: pieces)).
Proof.
  destruct value as [| | | |s| |]; try discriminate.
  cbn [split_pipe]; intros [= <-].
  pose proof (split_nonempty PIPE s) as Hne.
  destruct (split PIPE s) as [|piece pieces]; [easy|].
  now exists piece, pieces.
Qed.


(** The reshaped item has the seven fields of the source and no other, in
    this order: the five scalar fields as upstream has them, null when
    missing; at least one category; and the tags.  Whatever else the
    upstream item holds is dropped. *)
Theorem reshaped_item_fields (d : dict JSON) (entry : JSON) :
  simplified_item (JDict d) = inr entry ->
  exists category categories tags,
    entry =
    JDict [(lit "id", field_or_null (lit "id") d);
           (lit "title", field_or_null (lit "title") d);
           (lit "url", field_or_null (lit "url") d);
           (lit "source", field_or_null (lit "source") d);
           (lit "published_on", field_or_null (lit "published_on") d);
           (lit "categories", JList (map JStr (category :: categories)));
           (lit "tags", JList (map JStr tags))].
Proof.
  unfold simplified_item; rewrite !item_get_dict; cbn [rbind].
  unfold item_categories, item_tags; rewrite !item_get_dict; cbn [rbind].
  destruct (split_pipe _) as [e|c] eqn:Hc; cbn [rbind]; [discriminate|].
  destruct (split_pipe_shape _ Hc) as (piece & pieces & ->); clear Hc.
  destruct (truthy _).
  - destruct (split_pipe _) as [e|t] eqn:Ht; cbn [rbind]; [discriminate|].
    destruct (split_pipe_shape _ Ht) as (tpiece & tpieces & ->).
    intros [= <-]; now exists piece, pieces, (tpiece :: tpieces).
  - cbn [rbind]; intros [= <-]; now exists piece, pieces, [].
Qed.

Lemma reshaped_item_fields_witness :
  let d := [(lit "id", JStr (lit "42")); (lit "categories", JStr (lit "BTC|Regulation"))] in
  let entry := JDict [(lit "id", JStr (lit "42"));
                      (lit "title", JNull);
                      (lit "url", JNull);
                      (lit "source", JNull);
                      (lit "published_on", JNull);
                      (lit "categories", JList [JStr (lit "BTC"); JStr (lit "Regulation")]);
                      (lit "tags", JList [])] in
  exists category categories tags,
    entry =
    JDict [(lit "id", field_or_null (lit "id") d);
           (lit "title", field_or_null (lit "title") d);
           (lit "url", field_or_null (lit "url") d);
           (lit "source", field_or_null (lit "source") d);
           (lit "published_on", field_or_null (lit "published_on") d);
           (lit "categories", JList (map JStr (category :: categories)));
           (lit "tags", JList (map JStr tags))].
Proof.
  intros d entry.
  apply (@reshaped_item_fields d entry); reflexivity.
Defined.


(** ** The news sequence *)














(** ** The key check, on success *)

(** The key check answers on every run, and reports success exactly when
    the helper returned: any body that upstream sends with a 200 and that
    decodes is handed back as [price], whatever it says. *)
Theorem test_api_key_success_iff (env : Env) (w : World) :
  exists body,
    fst (test_api_key env w) = inr body /\
    (field (lit "status") body = Some (JStr (lit "success")) <->
     exists price,
       fst (fetch_from_cryptocompare env (lit "/price") probe_params w) = inr price) /\
    (forall price,
       fst (fetch_from_cryptocompare env (lit "/price") probe_params w) = inr price ->
       field (lit "price") body = Some price /\
       field (lit "message") body =
       Some (JStr (CHECK_MARK ::
                   lit " API key is valid and connection to CryptoCompare is established"))).
Proof.
  rewrite test_api_key_run.
  destruct (fetch_from_cryptocompare env (lit "/price") probe_params w) as [[e|price] w'];
    cbn [fst]; eexists; (split; [reflexivity|]); split.
  - split; [discriminate|intros [price H]; discriminate].
  - intros price H; discriminate.
  - split; [intros _; now exists price|reflexivity].
  - intros price' [= <-]; split; reflexivity.
Qed.

Lemma test_api_key_success_iff_witness :
  let price := JDict [(lit "Response", JStr (lit "Error"))] in
  let env := sample_env None (answers 200 [] (inr price)) in
  exists body,
    fst (test_api_key env empty_world) = inr body /\
    field (lit "status") body = Some (JStr (lit "success")) /\
    field (lit "price") body = Some price.
Proof.
  intros price env.
  destruct (test_api_key_success_iff env empty_world) as (body & Hrun & Hiff & Hprice).
  exists body; split; [exact Hrun|]; split.
  - apply Hiff; exists price; reflexivity.
  - apply (Hprice price); reflexivity.
Defined.

(** ** Upper case *)

Lemma ascii_upper_idempotent (c : codepoint) :
  ascii_upper (ascii_upper c) = ascii_upper c.
Proof.
  unfold ascii_upper.
  destruct ((97 <=? c)%N && (c <=? 122)%N) eqn:E; [|now rewrite E].
  apply andb_true_iff in E as [Hlo Hhi].
  apply N.leb_le in Hlo; apply N.leb_le in Hhi.
  replace (97 <=? c - 32)%N with false; [reflexivity|].
  symmetry; apply N.leb_gt; lia.
Qed.

Lemma ascii_upper_below_128 (c : codepoint) :
  (c <? 128)%N = true -> (ascii_upper c <? 128)%N = true.
Proof.
  unfold ascii_upper; intros H; apply N.ltb_lt in H.
  destruct ((97 <=? c)%N && (c <=? 122)%N); apply N.ltb_lt; lia.
Qed.

(** An ASCII symbol list goes upstream with its small letters capitalised
    and every other character as it was, digits and commas included, so
    the list keeps its length and its separators; what is already in
    upper case goes out unchanged. *)
Theorem ascii_symbols_sent_capitalised (env : Env) (fsym tsyms : str)
    (e : option str) :
  is_ascii fsym = true ->
  exists symbol,
    sent_upstream (lit "fsym") (get_price env fsym tsyms e empty_world) =
    [Some (VStr symbol)] /\
    symbol = map ascii_upper fsym /\
    List.length symbol = List.length fsym /\
    str_upper env symbol = symbol /\
    (forall i c, nth_error fsym i = Some c ->
                 ((c < 97)%N \/ (122 < c)%N) -> nth_error symbol i = Some c).
Proof.
  intros Hascii; exists (map ascii_upper fsym).
  split; [rewrite sent_upstream_get_price by reflexivity;
          cbn [dict_get str_eqb]; now rewrite str_upper_ascii|].
  split; [reflexivity|].
  split; [apply length_map|].
  split.
  - rewrite str_upper_ascii.
    + rewrite map_map; apply map_ext; intros c; apply ascii_upper_idempotent.
    + unfold is_ascii in *; rewrite forallb_forall in *.
      intros c Hin; apply in_map_iff in Hin as (c0 & <- & Hin0).
      now apply ascii_upper_below_128, Hascii.
  - intros i c Hnth Hout; rewrite nth_error_map, Hnth; cbn [option_map].
    unfold ascii_upper.
    replace ((97 <=? c)%N && (c <=? 122)%N) with false; [reflexivity|].
    symmetry; apply andb_false_iff.
    destruct Hout; [left; apply N.leb_gt|right; apply N.leb_gt]; lia.
Qed.

Lemma ascii_symbols_sent_capitalised_witness :
  let env := sample_env None (unreachable []) in
  exists symbol,
    sent_upstream (lit "fsym") (get_price env (lit "btc,Eth,1inch") (lit "usd") None empty_world) =
    [Some (VStr symbol)] /\
    symbol = lit "BTC,ETH,1INCH" /\
    List.length symbol = 13%nat /\
    str_upper env symbol = symbol.
Proof.
  intros env.
  destruct (@ascii_symbols_sent_capitalised env (lit "btc,Eth,1inch") (lit "usd") None eq_refl)
    as (symbol & Hsent & Hsymbol & Hlen & Hidem & _).
  exists symbol; repeat apply conj; assumption.
Defined.

(** ** The symbols sent upstream *)

Lemma capitalised_ascii_upper (x : str) : capitalised x (map ascii_upper x).
Proof.
  split; [apply length_map|].
  intros i c Hnth; rewrite nth_error_map, Hnth; cbn [option_map].
  unfold ascii_upper; split.
  - intros [Hlo Hhi].
    apply N.leb_le in Hlo; apply N.leb_le in Hhi; now rewrite Hlo, Hhi.
  - intros Hout.
    replace ((97 <=? c)%N && (c <=? 122)%N) with false; [reflexivity|].
    symmetry; apply andb_false_iff.
    destruct Hout; [left|right]; apply N.leb_gt; lia.
Qed.

Lemma is_ascii_map_ascii_upper (x : str) :
  is_ascii x = true -> is_ascii (map ascii_upper x) = true.
Proof.
  unfold is_ascii; rewrite !forallb_forall.
  intros H c Hin; apply in_map_iff in Hin as (c0 & <- & Hin0).
  now apply ascii_upper_below_128, H.
Qed.

(** C8: each symbol parameter of the price, multi-symbol price, history
    and top-pairs handlers goes upstream in upper case.  The value sent is
    [upper()] of the value received, which replaces each character by its
    capital: on ASCII input the value sent has the length of the input,
    the capital letter wherever the input has a small one and the input's
    character everywhere else, and upper-casing it again changes nothing;
    beyond ASCII the capital is the one of the Unicode table.  ["btc"]
    goes out as ["BTC"]. *)
Theorem C8_symbols_uppercased (env : Env) (fsym tsym fsyms tsyms : str)
    (limit aggregate : Z) (e : option str) :
  let price := get_price env fsym tsyms e empty_world in
  let multi := get_pricemulti env fsyms tsyms e empty_world in
  let day := get_histoday env fsym tsym limit aggregate e empty_world in
  let hour := get_histohour env fsym tsym limit aggregate e empty_world in
  let pairs := get_top_pairs env fsym limit empty_world in
  (sent_upstream (lit "fsym") price = [Some (VStr (str_upper env fsym))] /\
   sent_upstream (lit "tsyms") price = [Some (VStr (str_upper env tsyms))] /\
   sent_upstream (lit "fsyms") multi = [Some (VStr (str_upper env fsyms))] /\
   sent_upstream (lit "tsyms") multi = [Some (VStr (str_upper env tsyms))] /\
   sent_upstream (lit "fsym") day = [Some (VStr (str_upper env fsym))] /\
   sent_upstream (lit "tsym") day = [Some (VStr (str_upper env tsym))] /\
   sent_upstream (lit "fsym") hour = [Some (VStr (str_upper env fsym))] /\
   sent_upstream (lit "tsym") hour = [Some (VStr (str_upper env tsym))] /\
   sent_upstream (lit "fsym") pairs = [Some (VStr (str_upper env fsym))]) /\
  (forall x,
     str_upper env x =
     flat_map (fun c => if (c <? 128)%N
                        then [if (97 <=? c)%N && (c <=? 122)%N then (c - 32)%N else c]
                        else toupper_full env c) x) /\
  (forall x, is_ascii x = true ->
             capitalised x (str_upper env x) /\
             str_upper env (str_upper env x) = str_upper env x) /\
  (is_ascii fsym = true ->
   exists symbol,
     capitalised fsym symbol /\
     sent_upstream (lit "fsym") price = [Some (VStr symbol)] /\
     sent_upstream (lit "fsym") day = [Some (VStr symbol)] /\
     sent_upstream (lit "fsym") hour = [Some (VStr symbol)] /\
     sent_upstream (lit "fsym") pairs = [Some (VStr symbol)]) /\
  (is_ascii tsym = true ->
   exists symbol,
     capitalised tsym symbol /\
     sent_upstream (lit "tsym") day = [Some (VStr symbol)] /\
     sent_upstream (lit "tsym") hour = [Some (VStr symbol)]) /\
  (is_ascii fsyms = true ->
   exists symbols,
     capitalised fsyms symbols /\
     sent_upstream (lit "fsyms") multi = [Some (VStr symbols)]) /\
  (is_ascii tsyms = true ->
   exists symbols,
     capitalised tsyms symbols /\
     sent_upstream (lit "tsyms") price = [Some (VStr symbols)] /\
     sent_upstream (lit "tsyms") multi = [Some (VStr symbols)]) /\
  sent_upstream (lit "fsym") (get_price env (lit "btc") tsyms e empty_world) =
  [Some (VStr (lit "BTC"))].
Proof.
  intros price multi day hour pairs.
  assert (Hprice : forall name, str_eqb (lit "e") name = false ->
            sent_upstream name price =
            [dict_get name [(lit "fsym", VStr (str_upper env fsym));
                            (lit "tsyms", VStr (str_upper env tsyms))]])
    by (intros name Hne; now apply sent_upstream_get_price).
  assert (Hmulti : forall name, str_eqb (lit "e") name = false ->
            sent_upstream name multi =
            [dict_get name [(lit "fsyms", VStr (str_upper env fsyms));
                            (lit "tsyms", VStr (str_upper env tsyms))]])
    by (intros name Hne; now apply sent_upstream_get_pricemulti).
  assert (Hday : forall name, str_eqb (lit "e") name = false ->
            sent_upstream name day =
            [dict_get name [(lit "fsym", VStr (str_upper env fsym));
                            (lit "tsym", VStr (str_upper env tsym));
                            (lit "limit", VInt (Z.min limit 2000));
                            (lit "aggregate", VInt aggregate)]])
    by (intros name Hne; now apply sent_upstream_get_histoday).
  assert (Hhour : forall name, str_eqb (lit "e") name = false ->
            sent_upstream name hour =
            [dict_get name [(lit "fsym", VStr (str_upper env fsym));
                            (lit "tsym", VStr (str_upper env tsym));
                            (lit "limit", VInt (Z.min limit 2000));
                            (lit "aggregate", VInt aggregate)]])
    by (intros name Hne; now apply sent_upstream_get_histohour).
  assert (Hpairs : forall name,
            sent_upstream name pairs =
            [dict_get name [(lit "fsym", VStr (str_upper env fsym));
                            (lit "limit", VInt (Z.min limit 100))]])
    by (intros name; apply sent_upstream_get_top_pairs).
  assert (Hcap : forall x, is_ascii x = true -> capitalised x (str_upper env x)).
  { intros x Hx; rewrite (str_upper_ascii env x Hx); apply capitalised_ascii_upper. }
  clearbody price multi day hour pairs.
  split; [|split; [|split; [|split; [|split; [|split; [|split]]]]]].
  - repeat apply conj;
      first [rewrite Hprice by reflexivity | rewrite Hmulti by reflexivity
            | rewrite Hday by reflexivity | rewrite Hhour by reflexivity
            | rewrite Hpairs]; reflexivity.
  - intros x; reflexivity.
  - intros x Hx; split; [now apply Hcap|].
    rewrite (str_upper_ascii env x Hx).
    rewrite str_upper_ascii by now apply is_ascii_map_ascii_upper.
    rewrite map_map; apply map_ext; intros c; apply ascii_upper_idempotent.
  - intros Hx; exists (str_upper env fsym); split; [now apply Hcap|].
    rewrite Hprice, Hday, Hhour, Hpairs by reflexivity; repeat apply conj; reflexivity.
  - intros Hx; exists (str_upper env tsym); split; [now apply Hcap|].
    rewrite Hday, Hhour by reflexivity; split; reflexivity.
  - intros Hx; exists (str_upper env fsyms); split; [now apply Hcap|].
    rewrite Hmulti by reflexivity; reflexivity.
  - intros Hx; exists (str_upper env tsyms); split; [now apply Hcap|].
    rewrite Hprice, Hmulti by reflexivity; split; reflexivity.
  - now rewrite sent_upstream_get_price.
Qed.

Lemma C8_symbols_uppercased_witness :
  let env := sample_env None (unreachable []) in
  let price := get_price env (lit "btc") (lit "usd,Eur") None empty_world in
  let multi := get_pricemulti env (lit "btc,eth") (lit "usd,Eur") None empty_world in
  let day := get_histoday env (lit "btc") (lit "usd") 30 1 None empty_world in
  let hour := get_histohour env (lit "btc") (lit "usd") 30 1 None empty_world in
  let pairs := get_top_pairs env (lit "btc") 30 empty_world in
  (capitalised (lit "1inch") (str_upper env (lit "1inch")) /\
   str_upper env (str_upper env (lit "1inch")) = str_upper env (lit "1inch")) /\
  (exists symbol,
     capitalised (lit "btc") symbol /\
     sent_upstream (lit "fsym") price = [Some (VStr symbol)] /\
     sent_upstream (lit "fsym") day = [Some (VStr symbol)] /\
     sent_upstream (lit "fsym") hour = [Some (VStr symbol)] /\
     sent_upstream (lit "fsym") pairs = [Some (VStr symbol)]) /\
  (exists symbol,
     capitalised (lit "usd") symbol /\
     sent_upstream (lit "tsym") day = [Some (VStr symbol)] /\
     sent_upstream (lit "tsym") hour = [Some (VStr symbol)]) /\
  (exists symbols,
     capitalised (lit "btc,eth") symbols /\
     sent_upstream (lit "fsyms") multi = [Some (VStr symbols)]) /\
  (exists symbols,
     capitalised (lit "usd,Eur") symbols /\
     sent_upstream (lit "tsyms") price = [Some (VStr symbols)] /\
     sent_upstream (lit "tsyms") multi = [Some (VStr symbols)]).
Proof.
  intros env price multi day hour pairs.
  destruct (@C8_symbols_uppercased env (lit "btc") (lit "usd") (lit "btc,eth")
              (lit "usd,Eur") 30%Z 1%Z None)
    as (_ & _ & Hascii & Hfsym & Htsym & Hfsyms & Htsyms & _).
  split; [apply Hascii; reflexivity|].
  split; [apply Hfsym; reflexivity|].
  split; [apply Htsym; reflexivity|].
  split; [apply Hfsyms; reflexivity|apply Htsyms; reflexivity].
Defined.
